(** * am-rest-translator: the VictorOps translation handler

    A shallow embedding of [translators/victorops.go] (the handler
    [victorops] registered under "/victorops") and the properties of it that
    the specification states.

    The handler is effectful Go code: it reads the request, reads the clock,
    ranges over Go maps (whose enumeration order the runtime picks), posts to
    the VictorOps REST endpoint and writes to an [http.ResponseWriter], with
    early [return]s.  It is embedded as a state-passing computation
    [Handler A] over a [State] that holds the response writer, the trace of
    outbound calls and the counters of the calls made to the environment
    [Env], which answers for everything outside the process: the clock, the
    JSON encoder, the downstream service and the map enumeration order.
    Logging ([log.Debugf], [log.Errorf]) has no effect on the request and is
    left out. *)

From Stdlib Require Import ZArith NArith Lia Ascii String.
From stdpp Require Import base strings list sorting gmap fin_maps.

Local Open Scope string_scope.
Local Open Scope Z_scope.

(** ** Strings *)

(** The line feed written "\n" in the Go source. *)
Definition nl : string := String "010"%char EmptyString.

(** [strings.Join(elems, sep)]. *)
Fixpoint Join (elems : list string) (sep : string) : string :=
  match elems with
  | [] => ""
  | [e] => e
  | e :: (_ :: _) as rest => e +:+ sep +:+ Join rest sep
  end.

(** The decimal digit of a number below ten. *)
Definition digitChar (d : N) : ascii :=
  ascii_of_N (48 + d).

(** The digit loop of [strconv.FormatUint(u, 10)]: digits are produced from
    the least significant one and written in front of what is there.  The
    fuel bounds the number of digits. *)
Fixpoint formatBits (fuel : nat) (u : N) (acc : string) : string :=
  match fuel with
  | O => acc
  | S fuel' =>
      if (u <? 10)%N then String (digitChar u) acc
      else formatBits fuel' (u / 10)%N (String (digitChar (u mod 10)%N) acc)
  end.

(** [strconv.FormatUint(u, 10)].  A number has no more decimal digits than
    binary ones, so [N.size_nat u] steps are enough (one for zero). *)
Definition FormatUint (u : N) : string :=
  formatBits (S (N.size_nat u)) u "".

(** [%v] of a Go [int]: the decimal form, with a minus sign when negative. *)
Definition FormatInt (i : Z) : string :=
  if i <? 0 then "-" +:+ FormatUint (Z.abs_N i) else FormatUint (Z.abs_N i).

(** The value of a string of decimal digits, [None] when some character is
    not a digit or the string is empty: what [strconv.ParseUint(s, 10, _)]
    reads, without its bound on the size. *)
Fixpoint parseDigits (s : string) (acc : N) : option N :=
  match s with
  | EmptyString => Some acc
  | String c s' =>
      let n := N_of_ascii c in
      if ((48 <=? n) && (n <=? 57))%N
      then parseDigits s' (10 * acc + (n - 48))%N
      else None
  end.

Definition ParseUint (s : string) : option N :=
  match s with
  | EmptyString => None
  | _ => parseDigits s 0%N
  end.

(** ** The outbound schema (victorops.go, lines 20-75) *)

Record victoropsPost := {
  MessageType : string;        (* json:"message_type" *)
  EntityID : string;           (* json:"entity_id,omitempty" *)
  Timestamp : Z;               (* json:"timestamp,omitempty" *)
  StateStartTime : Z;          (* json:"state_start_time,omitempty" *)
  StateMessage : string;       (* json:"state_message,omitempty" *)
  MonitoringTool : string;     (* json:"monitoring_tool,omitempty" *)
  EntityDisplayName : string;  (* json:"entity_display_name,omitempty" *)
  AckMessage : string;         (* json:"ack_msg,omitempty" *)
  AckAuthor : string           (* json:"ack_author,omitempty" *)
}.

(** The response envelope.  Its [EntityID] field is named [RespEntityID]
    here, two records of one module cannot share a field name. *)
Record victoropsResponse := {
  Result : string;             (* json:"result" *)
  RespEntityID : string;       (* json:"entity_id" *)
  Message : string             (* json:"message,omitempty" *)
}.

(** The keys that [encoding/json] writes for a [victoropsPost], following the
    struct tags: a field tagged [omitempty] is left out when it holds the
    zero value of its type. *)
Definition keyUnlessEmpty (key value : string) : list string :=
  if String.eqb value "" then [] else [key].

Definition keyUnlessZero (key : string) (value : Z) : list string :=
  if value =? 0 then [] else [key].

Definition jsonKeys (vp : victoropsPost) : list string :=
  ["message_type"]
  ++ keyUnlessEmpty "entity_id" (EntityID vp)
  ++ keyUnlessZero "timestamp" (Timestamp vp)
  ++ keyUnlessZero "state_start_time" (StateStartTime vp)
  ++ keyUnlessEmpty "state_message" (StateMessage vp)
  ++ keyUnlessEmpty "monitoring_tool" (MonitoringTool vp)
  ++ keyUnlessEmpty "entity_display_name" (EntityDisplayName vp)
  ++ keyUnlessEmpty "ack_msg" (AckMessage vp)
  ++ keyUnlessEmpty "ack_author" (AckAuthor vp).

(** ** The inbound schema

    [notify.WebhookMessage] and [template.Data] of the Alertmanager release
    the handler is written against (the one whose [GroupKey] is a [uint64]):
    [WebhookMessage] embeds a pointer [*template.Data], so [wm.Status],
    [wm.Alerts], [wm.GroupLabels] and [wm.ExternalURL] are fields of the
    pointed-to [Data].  The decoder leaves [wm.Data] [nil] when the body
    names no field of [template.Data] at all; a body that names any of
    them, also one the handler never reads (the receiver, the common labels
    and annotations), has a [Data].  The fields the handler never reads are
    left out of the records. *)

(** [time.Time], of which the handler reads only [Unix()]. *)
Record Time := { Unix : Z }.

Record Alert := {
  Labels : gmap string string;
  Annotations : gmap string string;
  StartsAt : Time;
  GeneratorURL : string
}.

(** [Alerts] is a Go slice: [None] is the [nil] slice (JSON [null] or an
    absent key), [Some l] a slice of the elements [l]. *)
Record template_Data := {
  Status : string;
  Alerts : option (list Alert);
  GroupLabels : gmap string string;
  ExternalURL : string
}.

Record WebhookMessage := {
  Data : option template_Data;
  GroupKey : N
}.

(** Ranging over a slice visits its elements in order, none for [nil]. *)
Definition sliceElems {A} (s : option (list A)) : list A :=
  match s with
  | Some l => l
  | None => []
  end.

(** ** Requests, responses and the environment *)

(** The result of a call that returns [(value, err)]. *)
Inductive outcome (A : Type) :=
  | Done (a : A)
  | Failed (err : string).
Arguments Done {A} a.
Arguments Failed {A} err.

(** The inbound request: what [json.NewDecoder(req.Body).Decode(&wm)] gives,
    and [req.URL.Query()]. *)
Record Request := {
  Body : outcome WebhookMessage;
  Query : gmap string (list string)
}.

(** The downstream [*http.Response]: its status code and what decoding its
    body into a [victoropsResponse] gives.  The decoder fills the struct as
    far as it gets, so a value is there also when it reports an error. *)
Record Response := {
  StatusCode : Z;
  Decoded : victoropsResponse;
  DecodeErr : option string
}.

(** Everything outside the process.  [Now n] is the [n]-th reading of the
    clock in seconds; [Marshal] is [json.Marshal]; [Post n url body] is the
    result of the [n]-th [http.Post]; [RangeOrder n] is the order in which
    the [n]-th [range] over a map enumerates its entries, any permutation of
    them; [Values] is [template.KV.Values]. *)
Record Env := {
  Now : nat → Z;
  Marshal : victoropsPost → outcome string;
  Post : nat → string → string → outcome Response;
  RangeOrder : nat → list (string * string) → list (string * string);
  RangeOrder_perm : ∀ n l, RangeOrder n l ≡ₚ l;
  Values : gmap string string → list string
}.

(** What the handler does to the outside: a dispatch is started
    ([http.Post] is called with this URL and this message) and its outcome
    becomes known (the call returns). *)
Inductive Event :=
  | EvPost (url : string) (vp : victoropsPost)
  | EvOutcome (r : outcome Response).

(** [http.ResponseWriter]: the status line once it has been written, and the
    body written so far. *)
Record ResponseWriter := {
  wroteHeader : option Z;
  written : string
}.

Record State := {
  rw : ResponseWriter;
  trace : list Event;
  nNow : nat;
  nPost : nat;
  nRange : nat
}.

Definition initState : State :=
  {| rw := {| wroteHeader := None; written := "" |};
     trace := []; nNow := 0; nPost := 0; nRange := 0 |}.

(** ** The handler monad: state passing with early return *)

Inductive Flow (A : Type) :=
  | Next (a : A)
  | Return.
Arguments Next {A} a.
Arguments Return {A}.

Definition Handler (A : Type) : Type := State → Flow A * State.

Global Instance Handler_ret : MRet Handler :=
  λ A a s, (Next a, s).

Global Instance Handler_bind : MBind Handler :=
  λ A B f m s,
    match m s with
    | (Next a, s') => f a s'
    | (Return, s') => (Return, s')
    end.

(** The Go statement [return]. *)
Definition return_ {A} : Handler A := λ s, (Return, s).

(** ** What the handler calls *)

(** [rw.WriteHeader(code)]: the first call fixes the status, a later one
    (also one after a body write) changes nothing. *)
Definition writeHeader (code : Z) (w : ResponseWriter) : ResponseWriter :=
  match wroteHeader w with
  | Some _ => w
  | None => {| wroteHeader := Some code; written := written w |}
  end.

(** [rw.Write]: the first write of the body sends the header with status 200
    when none was written before. *)
Definition write (data : string) (w : ResponseWriter) : ResponseWriter :=
  let w' := writeHeader 200 w in
  {| wroteHeader := wroteHeader w'; written := written w' +:+ data |}.

Definition setRw (w : ResponseWriter) (s : State) : State :=
  {| rw := w; trace := trace s; nNow := nNow s; nPost := nPost s;
     nRange := nRange s |}.

Definition WriteHeader (code : Z) : Handler unit :=
  λ s, (Next tt, setRw (writeHeader code (rw s)) s).

(** [fmt.Fprintf(rw, ...)], given the formatted text. *)
Definition Fprintf (text : string) : Handler unit :=
  λ s, (Next tt, setRw (write text (rw s)) s).

(** [time.Now().Unix()]. *)
Definition time_Now_Unix (env : Env) : Handler Z :=
  λ s, (Next (Now env (nNow s)),
        {| rw := rw s; trace := trace s; nNow := S (nNow s);
           nPost := nPost s; nRange := nRange s |}).

(** The entries of a map in the order a [range] statement visits them. *)
Definition rangeMap (env : Env) (m : gmap string string)
  : Handler (list (string * string)) :=
  λ s, (Next (RangeOrder env (nRange s) (map_to_list m)),
        {| rw := rw s; trace := trace s; nNow := nNow s;
           nPost := nPost s; nRange := S (nRange s) |}).

(** [http.Post(url, "application/json", bytes.NewBuffer(b))], where [b] is
    the encoding of [vp]: the call blocks until its outcome is there. *)
Definition http_Post (env : Env) (url b : string) (vp : victoropsPost)
  : Handler (outcome Response) :=
  λ s, let r := Post env (nPost s) url b in
       (Next r,
        {| rw := rw s; trace := trace s ++ [EvPost url vp; EvOutcome r];
           nNow := nNow s; nPost := S (nPost s); nRange := nRange s |}).

(** [for _, x := range xs { body }] where the body may [return]. *)
Fixpoint forRange {A} (xs : list A) (body : A → Handler unit) : Handler unit :=
  match xs with
  | [] => mret tt
  | x :: xs' => body x ;; forRange xs' body
  end.

(** [m[key]] on a [map[string]string]: the empty string when absent. *)
Definition index (m : gmap string string) (key : string) : string :=
  default "" (m !! key).

(** [if val, ok := q[param]; ok && len(val) > 0 { x = val[0] }] after
    [x := ""]. *)
Definition queryParam (q : gmap string (list string)) (param : string) : string :=
  match q !! param with
  | Some (v :: _) => v
  | _ => ""
  end.

(** ** The handler (victorops.go, lines 81-250) *)

Definition victoropsApikeyParam : string := "api_key".
Definition victoropsRoutingkeyParam : string := "routing_key".

Definition victoropsURL (apiKey routingKey : string) : string :=
  "https://alert.victorops.com/integrations/generic/20131114/alert/"
  +:+ apiKey +:+ "/" +:+ routingKey.

(** [stateMessage += k + ": " + v + "\n"] for each entry. *)
Definition appendEntries (stateMessage : string) (entries : list (string * string))
  : string :=
  fold_left (λ acc kv, acc +:+ (kv.1 +:+ ": " +:+ kv.2 +:+ nl))
    entries stateMessage.

(** The first part of the body of the loop of the firing branch: the
    message for one alert (lines 131-156). *)
Definition firingPost (env : Env) (wm : WebhookMessage) (d : template_Data)
    (displayName : string) (alert : Alert) : Handler victoropsPost :=
  let groupKey := GroupKey wm in
  let messageType := "CRITICAL" in
  let messageType :=
    if negb (String.eqb (index (Labels alert) "victorops_message_type") "")
    then index (Labels alert) "victorops_message_type"
    else messageType in
  let stateMessage := "" in
  annotations ← rangeMap env (Annotations alert);
  let stateMessage := appendEntries stateMessage annotations in
  labels ← rangeMap env (Labels alert);
  let stateMessage := appendEntries stateMessage labels in
  let stateMessage := stateMessage +:+ ("Prometheus: " +:+ GeneratorURL alert +:+ nl) in
  let stateMessage := stateMessage +:+ ("Alertmanager: " +:+ ExternalURL d) in
  now ← time_Now_Unix env;
  mret {| MessageType := messageType;
          EntityID := FormatUint groupKey;
          Timestamp := now;
          StateStartTime := Unix (StartsAt alert);
          StateMessage := stateMessage;
          MonitoringTool := "Prometheus Alertmanager";
          EntityDisplayName := displayName;
          AckMessage := "";
          AckAuthor := "" |}.

(** The body of the loop of the firing branch (lines 131-194): the message
    is built, encoded and posted, and the response is checked. *)
Definition firingAlert (env : Env) (wm : WebhookMessage) (d : template_Data)
    (apiKey routingKey displayName : string) (alert : Alert) : Handler unit :=
  vp ← firingPost env wm d displayName alert;
  match Marshal env vp with
  | Done b =>
      posted ← http_Post env (victoropsURL apiKey routingKey) b vp;
      match posted with
      | Failed err =>
          WriteHeader 502;;
          Fprintf ("Failed post to VictorOps REST api: " +:+ err);;
          return_
      | Done resp =>
          let vr := Decoded resp in
          match DecodeErr resp with
          | Some err =>
              (* the WriteHeader of this branch is commented out *)
              Fprintf ("Could not decode VictorOps response body: " +:+ err)
          | None => mret tt
          end;;
          if negb (Z.quot (StatusCode resp) 100 =? 2) then
            WriteHeader 502;;
            Fprintf ("Unexpected status code " +:+ FormatInt (StatusCode resp)
                     +:+ " from VictorOps: " +:+ Message vr);;
            return_
          else mret tt
      end
  | Failed err =>
      WriteHeader 500;;
      Fprintf ("Failed to marshall victoropsPost: " +:+ err);;
      return_
  end.

(** The resolved branch (lines 197-243). *)
Definition resolved (env : Env) (wm : WebhookMessage)
    (apiKey routingKey displayName : string) : Handler unit :=
  let groupKey := GroupKey wm in
  now ← time_Now_Unix env;
  let vp := {| MessageType := "RECOVERY";
               EntityID := FormatUint groupKey;
               Timestamp := now;
               StateStartTime := 0;
               StateMessage := "Entity recovered";
               MonitoringTool := "Prometheus Alertmanager";
               EntityDisplayName := displayName;
               AckMessage := "";
               AckAuthor := "" |} in
  match Marshal env vp with
  | Done b =>
      posted ← http_Post env (victoropsURL apiKey routingKey) b vp;
      match posted with
      | Failed err =>
          WriteHeader 502;;
          Fprintf ("Failed post to VictorOps REST api: " +:+ err);;
          return_
      | Done resp =>
          let vr := Decoded resp in
          match DecodeErr resp with
          | Some err =>
              WriteHeader 502;;
              Fprintf ("Could not decode VictorOps response body: " +:+ err);;
              return_
          | None =>
              if negb (Z.quot (StatusCode resp) 100 =? 2) then
                WriteHeader 502;;
                (* the format has one verb, and it is given vr.Message *)
                Fprintf ("Unexpected status code " +:+ Message vr
                         +:+ " from VictorOps: ");;
                return_
              else mret tt
          end
      end
  | Failed err =>
      WriteHeader 500;;
      Fprintf ("Failed to marshall victoropsPost: " +:+ err);;
      return_
  end.

(** [func victorops(rw http.ResponseWriter, req *http.Request)]. *)
Definition victorops (env : Env) (req : Request) : Handler unit :=
  match Body req with
  | Failed err =>
      WriteHeader 400;;
      Fprintf ("Could not decode Alertmanager request body: " +:+ err);;
      return_
  | Done wm =>
      match Data wm with
      | None =>
          WriteHeader 400;;
          Fprintf "Missing fields request body";;
          return_
      | Some d =>
          let apiKey := queryParam (Query req) victoropsApikeyParam in
          let routingKey := queryParam (Query req) victoropsRoutingkeyParam in
          if String.eqb apiKey "" || String.eqb routingKey "" then
            WriteHeader 400;;
            Fprintf ("requires query parameters '" +:+ victoropsApikeyParam
                     +:+ "' and '" +:+ victoropsRoutingkeyParam +:+ "'");;
            return_
          else
            let status := Status d in
            let displayName := Join (Values env (GroupLabels d)) ":" in
            if String.eqb status "firing" then
              forRange (sliceElems (Alerts d))
                (firingAlert env wm d apiKey routingKey displayName)
            else if String.eqb status "resolved" then
              resolved env wm apiKey routingKey displayName
            else
              WriteHeader 400;;
              Fprintf ("Unknown Alertmanager status: " +:+ status);;
              return_
      end
  end.

(** ** Serving a request *)

(** The state in which the server leaves the request: the handler is run on
    a fresh response writer. *)
Definition serve (env : Env) (req : Request) : State :=
  (victorops env req initState).2.

(** The status the caller receives: 200 when the handler wrote none. *)
Definition responseStatus (s : State) : Z :=
  default 200 (wroteHeader (rw s)).

Definition responseBody (s : State) : string :=
  written (rw s).

(** The dispatches of a trace: the messages posted, in the order they were
    posted, with the URL they were posted to. *)
Fixpoint dispatches (t : list Event) : list (string * victoropsPost) :=
  match t with
  | [] => []
  | EvPost url vp :: t' => (url, vp) :: dispatches t'
  | EvOutcome _ :: t' => dispatches t'
  end.

(** The downstream accepted the dispatch: the call returned a response with
    a 2xx status. *)
Definition accepted (r : outcome Response) : bool :=
  match r with
  | Done resp => Z.quot (StatusCode resp) 100 =? 2
  | Failed _ => false
  end.

(** ** Runs of the firing loop *)

(** The lines "key: value\n" of a list of entries, one after the other. *)
Fixpoint entryLines (entries : list (string * string)) : string :=
  match entries with
  | [] => ""
  | kv :: rest => (kv.1 +:+ ": " +:+ kv.2 +:+ nl) +:+ entryLines rest
  end.

(** [vp] is a message that the loop body builds for [alert]: the result of
    [firingPost] in some state. *)
Definition builtFor (env : Env) (wm : WebhookMessage) (d : template_Data)
    (displayName : string) (alert : Alert) (vp : victoropsPost) : Prop :=
  ∃ s, (firingPost env wm d displayName alert s).1 = Next vp.

(** The runs of the loop of the firing branch over a list of alerts, as a
    relation between the number of posts made before, the alerts, the events
    of the run and the way the loop is left ([Next tt]: it ran to its end,
    [Return]: the handler returned from inside it). *)
Inductive loopRun (env : Env) (wm : WebhookMessage) (d : template_Data)
    (url displayName : string)
  : nat → list Alert → list Event → Flow unit → Prop :=
  | loop_end n :
      loopRun env wm d url displayName n [] [] (Next tt)
  | loop_marshal_failed n alert rest vp err :
      builtFor env wm d displayName alert vp →
      Marshal env vp = Failed err →
      loopRun env wm d url displayName n (alert :: rest) [] Return
  | loop_rejected n alert rest vp b :
      builtFor env wm d displayName alert vp →
      Marshal env vp = Done b →
      accepted (Post env n url b) = false →
      loopRun env wm d url displayName n (alert :: rest)
        [EvPost url vp; EvOutcome (Post env n url b)] Return
  | loop_accepted n alert rest vp b t flow :
      builtFor env wm d displayName alert vp →
      Marshal env vp = Done b →
      accepted (Post env n url b) = true →
      loopRun env wm d url displayName (S n) rest t flow →
      loopRun env wm d url displayName n (alert :: rest)
        (EvPost url vp :: EvOutcome (Post env n url b) :: t) flow.

(** A trace is sequential when it is made of dispatches each followed at
    once by its own outcome, and an outcome that is not an acceptance is the
    last event. *)
Fixpoint sequential (t : list Event) : bool :=
  match t with
  | [] => true
  | EvPost _ _ :: EvOutcome r :: t' =>
      (accepted r || bool_decide (t' = [])) && sequential t'
  | _ => false
  end.

(** The request is for the firing or the resolved branch: the body decoded,
    its data is [d], its status is [status] and both credentials are there. *)
Definition routed (req : Request) (wm : WebhookMessage) (d : template_Data)
    (status : string) : Prop :=
  Body req = Done wm ∧ Data wm = Some d ∧ Status d = status ∧
  queryParam (Query req) victoropsApikeyParam ≠ "" ∧
  queryParam (Query req) victoropsRoutingkeyParam ≠ "".

(** The URL the request's dispatches go to. *)
Definition requestURL (req : Request) : string :=
  victoropsURL (queryParam (Query req) victoropsApikeyParam)
               (queryParam (Query req) victoropsRoutingkeyParam).

(** The environment accepts every dispatch: every message encodes and every
    post comes back with a 2xx status. *)
Definition allAccepted (env : Env) : Prop :=
  (∀ vp, ∃ b, Marshal env vp = Done b) ∧
  (∀ n url b, accepted (Post env n url b) = true).

(** ** Sample environments and requests *)

(** A stand-in for [json.Marshal] in the sample environments: the keys that
    are written, without the values.  It never fails, as [json.Marshal] does
    not on a struct of strings and integers. *)
Definition sampleMarshal (vp : victoropsPost) : outcome string :=
  Done ("{" +:+ Join (jsonKeys vp) "," +:+ "}").

(** [template.KV.Values]: the value of the label [alertname] first, when
    there is one, then the other values in the order of their keys. *)
Definition sortedValues (m : gmap string string) : list string :=
  match m !! "alertname" with
  | Some v => [v]
  | None => []
  end
  ++ (merge_sort (λ x y : string * string, String.le x.1 y.1)
        (map_to_list (delete "alertname" m))).*2.

(** The sample environment in which the [n]-th post has the outcome
    [post n], the clock starts at 1500000000 and advances by a second per
    reading, and a [range] enumerates a map in the order [order]. *)
Definition sampleEnv (post : nat → outcome Response)
    (order : list (string * string) → list (string * string))
    (order_perm : ∀ l, order l ≡ₚ l) : Env :=
  {| Now := λ n, 1500000000 + Z.of_nat n;
     Marshal := sampleMarshal;
     Post := λ n _ _, post n;
     RangeOrder := λ _, order;
     RangeOrder_perm := λ _, order_perm;
     Values := sortedValues |}.

Definition inOrder (post : nat → outcome Response) : Env :=
  sampleEnv post (λ l, l) (λ l, Permutation_refl l).

Definition inReverse (post : nat → outcome Response) : Env :=
  sampleEnv post reverse reverse_Permutation.

(** Downstream responses: an acceptance, the rejection of the
    specification's example (status 500, body
    [{"result":"failure","message":"bad routing key"}]), and a response
    with status [code] whose body is not JSON. *)
Definition successResponse : Response :=
  {| StatusCode := 200;
     Decoded := {| Result := "success"; RespEntityID := "42"; Message := "" |};
     DecodeErr := None |}.

Definition failureResponse : Response :=
  {| StatusCode := 500;
     Decoded := {| Result := "failure"; RespEntityID := "";
                   Message := "bad routing key" |};
     DecodeErr := None |}.

Definition garbledResponse (code : Z) : Response :=
  {| StatusCode := code;
     Decoded := {| Result := ""; RespEntityID := ""; Message := "" |};
     DecodeErr := Some "invalid character '<' looking for beginning of value" |}.

Definition sampleQuery : gmap string (list string) :=
  {[ "api_key" := ["key"]; "routing_key" := ["team"] ]}.

(** An alert that overrides the message kind, one that does not, and one
    without labels and annotations. *)
Definition warningAlert : Alert :=
  {| Labels := {[ "alertname" := "DiskFull"; "victorops_message_type" := "WARNING" ]};
     Annotations := {[ "summary" := "disk is full" ]};
     StartsAt := {| Unix := 1499999000 |};
     GeneratorURL := "http://prometheus/graph" |}.

Definition plainAlert : Alert :=
  {| Labels := {[ "alertname" := "InstanceDown"; "instance" := "db1" ]};
     Annotations := ∅;
     StartsAt := {| Unix := 1499999500 |};
     GeneratorURL := "http://prometheus/graph" |}.

Definition bareAlert : Alert :=
  {| Labels := ∅; Annotations := ∅;
     StartsAt := {| Unix := 1499999900 |};
     GeneratorURL := "http://prometheus/graph" |}.

Definition sampleData (status : string) (alerts : option (list Alert))
  : template_Data :=
  {| Status := status; Alerts := alerts;
     GroupLabels := {[ "job" := "node"; "alertname" := "DiskFull" ]};
     ExternalURL := "http://alertmanager" |}.

Definition sampleMessage (status : string) (alerts : option (list Alert))
  : WebhookMessage :=
  {| Data := Some (sampleData status alerts); GroupKey := 1234567890123 |}.

Definition sampleRequest (status : string) (alerts : option (list Alert))
  : Request :=
  {| Body := Done (sampleMessage status alerts); Query := sampleQuery |}.

(** The status of the response is not fixed at an error: no header was
    written, or the header that the first write of a body sends. *)
Definition noErrorStatus (w : ResponseWriter) : Prop :=
  wroteHeader w = None ∨ wroteHeader w = Some 200.

(** The statuses that the two branches set: none yet, or 200, 500 or 502. *)
Definition branchStatus (w : ResponseWriter) : Prop :=
  wroteHeader w = None ∨ wroteHeader w = Some 200 ∨
  wroteHeader w = Some 500 ∨ wroteHeader w = Some 502.

(** The request passes the guards of the handler: it is routed to the firing
    or to the resolved branch. *)
Definition passesGuards (req : Request) : Prop :=
  ∃ wm d, routed req wm d "firing" ∨ routed req wm d "resolved".

(** The string holds the character [/]. *)
Fixpoint hasSlash (s : string) : bool :=
  match s with
  | EmptyString => false
  | String c s' => Ascii.eqb c "/" || hasSlash s'
  end.

(** * Properties *)
(** ** Strings: helper lemmas *)

Lemma append_cons (x : ascii) (a b : string) :
  String x a +:+ b = String x (a +:+ b).
Proof. reflexivity. Qed.

Lemma append_nil_l (a : string) : "" +:+ a = a.
Proof. reflexivity. Qed.

Lemma append_assoc (a b c : string) : (a +:+ b) +:+ c = a +:+ (b +:+ c).
Proof.
  induction a as [|x a IH]; [done|]. by rewrite !append_cons, IH.
Qed.

Lemma append_nil_r (a : string) : a +:+ "" = a.
Proof.
  induction a as [|x a IH]; [done|]. by rewrite append_cons, IH.
Qed.

Lemma digitChar_code (d : N) : (d < 10)%N → N_of_ascii (digitChar d) = (48 + d)%N.
Proof. intros Hd. unfold digitChar. apply N_ascii_embedding. lia. Qed.

Lemma parseDigits_digit (d : N) (s : string) (a : N) :
  (d < 10)%N →
  parseDigits (String (digitChar d) s) a = parseDigits s (10 * a + d)%N.
Proof.
  intros Hd. simpl. rewrite digitChar_code by done.
  replace ((48 <=? 48 + d)%N && (48 + d <=? 57)%N) with true.
  - f_equal. lia.
  - symmetry. apply andb_true_intro. split; apply N.leb_le; lia.
Qed.

Lemma formatBits_value (fuel : nat) :
  ∀ (u : N) (acc : string), (u < 2 ^ N.of_nat fuel)%N →
    ∃ k : N, ∀ a, parseDigits (formatBits fuel u acc) a
                  = parseDigits acc (a * 10 ^ k + u)%N.
Proof.
  induction fuel as [|fuel IH]; intros u acc Hu.
  - exists 0%N. intros a. simpl in *. f_equal. lia.
  - cbn [formatBits]. destruct (N.ltb_spec u 10) as [Hlt|Hge].
    + exists 1%N. intros a. rewrite parseDigits_digit by done. f_equal. lia.
    + destruct (IH (u / 10)%N (String (digitChar (u mod 10)%N) acc)) as [k Hk].
      { rewrite Nat2N.inj_succ, N.pow_succ_r' in Hu.
        apply N.Div0.div_lt_upper_bound. lia. }
      exists (N.succ k). intros a. rewrite Hk.
      rewrite parseDigits_digit by (apply N.mod_lt; lia).
      f_equal. rewrite N.pow_succ_r'.
      pose proof (N.div_mod u 10). lia.
Qed.

Lemma formatBits_nonempty (fuel : nat) (u : N) (c : ascii) (acc : string) :
  formatBits fuel u (String c acc) ≠ "".
Proof.
  revert u c acc. induction fuel as [|fuel IH]; intros u c acc; simpl; [done|].
  destruct (u <? 10)%N; [done | apply IH].
Qed.

Lemma size_nat_bound (u : N) : (u < 2 ^ N.of_nat (S (N.size_nat u)))%N.
Proof.
  rewrite Nat2N.inj_succ, N.pow_succ_r'.
  destruct u as [|p]; simpl; [lia|].
  enough (N.pos p < 2 ^ N.of_nat (Pos.size_nat p))%N by lia.
  induction p as [p IH|p IH|]; cbn [Pos.size_nat];
    rewrite ?Nat2N.inj_succ, ?N.pow_succ_r'; simpl; lia.
Qed.

(** [FormatUint] writes the decimal form: reading it back gives the number. *)
Lemma ParseUint_FormatUint (u : N) : ParseUint (FormatUint u) = Some u.
Proof.
  unfold FormatUint.
  destruct (formatBits_value _ u "" (size_nat_bound u)) as [k Hk].
  unfold ParseUint.
  destruct (formatBits (S (N.size_nat u)) u "") eqn:E.
  - exfalso. cbn [formatBits] in E. destruct (u <? 10)%N; [done|].
    revert E. apply formatBits_nonempty.
  - rewrite Hk. simpl. f_equal; lia.
Qed.

Lemma FormatUint_inj (u v : N) : FormatUint u = FormatUint v → u = v.
Proof.
  intros H. apply (f_equal ParseUint) in H.
  rewrite !ParseUint_FormatUint in H. congruence.
Qed.

(** ** The message built for an alert *)

(** Unfolds the handler monad and the calls that only touch the state. *)
Tactic Notation "run_handler" :=
  cbv [mbind mret Handler_bind Handler_ret return_ rangeMap time_Now_Unix
       WriteHeader Fprintf http_Post setRw];
  cbn [fst snd rw trace nNow nPost nRange].
Tactic Notation "run_handler" "in" hyp(H) :=
  cbv [mbind mret Handler_bind Handler_ret return_ rangeMap time_Now_Unix
       WriteHeader Fprintf http_Post setRw] in H;
  cbn [fst snd rw trace nNow nPost nRange] in H.

Lemma appendEntries_lines (entries : list (string * string)) (acc : string) :
  appendEntries acc entries = acc +:+ entryLines entries.
Proof.
  unfold appendEntries. revert acc.
  induction entries as [|kv rest IH]; intros acc; simpl.
  - by rewrite append_nil_r.
  - by rewrite IH, append_assoc.
Qed.

(** [firingPost] never returns early: it reads two enumeration orders and
    the clock, and leaves the rest of the state as it is. *)
Lemma firingPost_run env wm d displayName alert s :
  ∃ vp, firingPost env wm d displayName alert s =
        (Next vp, {| rw := rw s; trace := trace s; nNow := S (nNow s);
                     nPost := nPost s; nRange := S (S (nRange s)) |})
        ∧ Timestamp vp = Now env (nNow s).
Proof. unfold firingPost. run_handler. eexists. split; reflexivity. Qed.

Lemma builtFor_kind env wm d displayName alert vp :
  builtFor env wm d displayName alert vp →
  MessageType vp =
    match Labels alert !! "victorops_message_type" with
    | Some v => if String.eqb v "" then "CRITICAL" else v
    | None => "CRITICAL"
    end.
Proof.
  intros [s Hs]. unfold firingPost in Hs. run_handler in Hs. injection Hs as <-. cbn.
  unfold index. destruct (Labels alert !! "victorops_message_type") as [v|]; cbn.
  - by destruct (String.eqb v "").
  - done.
Qed.

Lemma builtFor_entity env wm d displayName alert vp :
  builtFor env wm d displayName alert vp →
  EntityID vp = FormatUint (GroupKey wm).
Proof. intros [s Hs]. unfold firingPost in Hs. run_handler in Hs. by injection Hs as <-. Qed.

Lemma builtFor_start env wm d displayName alert vp :
  builtFor env wm d displayName alert vp →
  StateStartTime vp = Unix (StartsAt alert).
Proof. intros [s Hs]. unfold firingPost in Hs. run_handler in Hs. by injection Hs as <-. Qed.

Lemma builtFor_message env wm d displayName alert vp :
  builtFor env wm d displayName alert vp →
  ∃ annotations labels,
    annotations ≡ₚ map_to_list (Annotations alert) ∧
    labels ≡ₚ map_to_list (Labels alert) ∧
    StateMessage vp =
      entryLines annotations +:+ entryLines labels
      +:+ "Prometheus: " +:+ GeneratorURL alert +:+ nl
      +:+ "Alertmanager: " +:+ ExternalURL d.
Proof.
  intros [s Hs]. unfold firingPost in Hs. run_handler in Hs. injection Hs as <-. cbn.
  eexists _, _. split; [apply RangeOrder_perm|]. split; [apply RangeOrder_perm|].
  rewrite !appendEntries_lines, append_nil_l, !append_assoc. done.
Qed.

(** ** The loop of the firing branch *)

Lemma forRange_cons {A} (x : A) (xs : list A) (body : A → Handler unit) s :
  forRange (x :: xs) body s =
    match body x s with
    | (Next _, s') => forRange xs body s'
    | (Return, s') => (Return, s')
    end.
Proof. reflexivity. Qed.

Section Firing.
Context (env : Env) (wm : WebhookMessage) (d : template_Data).
Context (apiKey routingKey displayName : string).

Local Abbreviation url := (victoropsURL apiKey routingKey).
Local Abbreviation body := (firingAlert env wm d apiKey routingKey displayName).

(** One turn of the loop: a message is built; when it does not encode,
    the handler returns with nothing posted; otherwise it is posted, the
    outcome is awaited, and the loop goes on exactly when the outcome is an
    acceptance.  The reply to the caller is written as the turn goes. *)
Lemma firingAlert_step alert s :
  ∃ vp, builtFor env wm d displayName alert vp ∧
    match Marshal env vp with
    | Failed err =>
        (body alert s).1 = Return ∧
        trace (body alert s).2 = trace s ∧
        nPost (body alert s).2 = nPost s ∧
        rw (body alert s).2 =
          write ("Failed to marshall victoropsPost: " +:+ err)
                (writeHeader 500 (rw s))
    | Done b =>
        let r := Post env (nPost s) url b in
        (body alert s).1 = (if accepted r then Next tt else Return) ∧
        trace (body alert s).2 = (trace s ++ [EvPost url vp; EvOutcome r])%list ∧
        nPost (body alert s).2 = S (nPost s) ∧
        rw (body alert s).2 =
          match r with
          | Failed err =>
              write ("Failed post to VictorOps REST api: " +:+ err)
                    (writeHeader 502 (rw s))
          | Done resp =>
              let w :=
                match DecodeErr resp with
                | Some err =>
                    write ("Could not decode VictorOps response body: " +:+ err)
                          (rw s)
                | None => rw s
                end in
              if Z.quot (StatusCode resp) 100 =? 2 then w
              else write ("Unexpected status code "
                          +:+ FormatInt (StatusCode resp)
                          +:+ " from VictorOps: " +:+ Message (Decoded resp))
                         (writeHeader 502 w)
          end
    end.
Proof.
  unfold firingAlert, firingPost. run_handler.
  eexists. split.
  { exists s. unfold firingPost. run_handler. reflexivity. }
  cbn [Timestamp].
  match goal with |- context [Marshal env ?v] => destruct (Marshal env v) as [b|err] end.
  2: { cbn. repeat split. }
  cbn zeta. cbn [nPost rw trace nNow nRange fst snd].
  destruct (Post env (nPost s) url b) as [resp|err]; cbn.
  2: { repeat split. }
  destruct (DecodeErr resp); cbn;
    destruct (StatusCode resp ÷ 100 =? 2); cbn; repeat split.
Qed.

Lemma forRange_loopRun alerts : ∀ s,
  ∃ t, trace (forRange alerts body s).2 = (trace s ++ t)%list ∧
       loopRun env wm d url displayName (nPost s) alerts t
         (forRange alerts body s).1.
Proof.
  induction alerts as [|alert rest IH]; intros s.
  - exists []. cbn. rewrite app_nil_r. split; [done | constructor].
  - rewrite !forRange_cons.
    destruct (firingAlert_step alert s) as (vp & Hvp & Hstep).
    destruct (body alert s) as [flow s1] eqn:Hbody. cbn [fst snd] in Hstep.
    destruct (Marshal env vp) as [b|err] eqn:Hm.
    + cbn zeta in Hstep. destruct Hstep as (Hflow & Htrace & Hn & _).
      destruct (accepted (Post env (nPost s) url b)) eqn:Hacc; subst flow.
      * destruct (IH s1) as (t & Ht & Hrun).
        exists (EvPost url vp :: EvOutcome (Post env (nPost s) url b) :: t).
        split.
        { rewrite Ht, Htrace, <- app_assoc. done. }
        eapply loop_accepted; eauto. by rewrite <- Hn.
      * exists [EvPost url vp; EvOutcome (Post env (nPost s) url b)].
        split; [done|]. eapply loop_rejected; eauto.
    + destruct Hstep as (Hflow & Htrace & Hn & _). subst flow.
      exists []. cbn [fst snd]. rewrite app_nil_r. split; [done|].
      eapply loop_marshal_failed; eauto.
Qed.
End Firing.

(** ** What a run of the loop dispatches *)

Section LoopRun.
Context (env : Env) (wm : WebhookMessage) (d : template_Data).
Context (url displayName : string).

Local Abbreviation run := (loopRun env wm d url displayName).

(** The dispatches of a run are for a prefix of the alerts, in their
    order, each with a message built for its alert. *)
Lemma loopRun_dispatches n alerts t flow :
  run n alerts t flow →
  ∀ i url' vp, dispatches t !! i = Some (url', vp) →
    url' = url ∧ ∃ alert, alerts !! i = Some alert ∧
                          builtFor env wm d displayName alert vp.
Proof.
  induction 1 as [n|n alert rest vp err Hb Hm|n alert rest vp b Hb Hm Hacc
                 |n alert rest vp b t flow Hb Hm Hacc Hrun IH];
    intros i url' vp' Hi; cbn in Hi.
  - done.
  - done.
  - destruct i as [|i]; cbn in Hi; [|done].
    injection Hi as <- <-. split; [done|]. exists alert. done.
  - destruct i as [|i]; cbn in Hi.
    + injection Hi as <- <-. split; [done|]. exists alert. done.
    + apply IH in Hi as (-> & alert' & Ha & Hb'). split; [done|].
      exists alert'. done.
Qed.


(** A loop that ran to its end has dispatched every alert. *)
Lemma loopRun_Next n alerts t flow :
  run n alerts t flow → flow = Next tt →
  length (dispatches t) = length alerts.
Proof. induction 1; cbn; intros; try done. f_equal. auto. Qed.

(** In an environment that accepts every dispatch the loop runs to its
    end. *)
Lemma loopRun_allAccepted n alerts t flow :
  allAccepted env → run n alerts t flow → flow = Next tt.
Proof.
  intros [Hm Hp]. induction 1 as [| ? ? ? vp err ? Hf | ? ? ? ? b ? ? Hacc |]; auto.
  - destruct (Hm vp) as [b Hb]. congruence.
  - rewrite Hp in Hacc. done.
Qed.

(** The events of a run alternate between a dispatch and its outcome, and
    only the last outcome can be a failure. *)
Lemma loopRun_sequential n alerts t flow :
  run n alerts t flow → sequential t = true.
Proof.
  induction 1 as [| | |? ? ? ? ? ? ? ? ? Hacc ? IH]; cbn; try done.
  - by rewrite orb_true_r.
  - by rewrite Hacc, IH.
Qed.

(** When the loop stopped before the last alert, the last dispatch failed
    or the message of the next alert did not encode. *)
Lemma loopRun_stopped n alerts t flow :
  run n alerts t flow →
  (length (dispatches t) < length alerts)%nat →
  (∃ t' url' vp r, t = (t' ++ [EvPost url' vp; EvOutcome r])%list ∧ accepted r = false)
  ∨ (∃ alert vp err, alerts !! length (dispatches t) = Some alert ∧
                     builtFor env wm d displayName alert vp ∧
                     Marshal env vp = Failed err).
Proof.
  induction 1 as [n|n alert rest vp err Hb Hm|n alert rest vp b Hb Hm Hacc
                 |n alert rest vp b t flow Hb Hm Hacc Hrun IH]; cbn; intros Hlt.
  - lia.
  - right. exists alert, vp, err. done.
  - left. exists [], url, vp, (Post env n url b). done.
  - destruct IH as [(t' & url' & vp' & r & -> & Hr)|(alert' & vp' & err & Ha & Hb' & Hm')];
      [lia| |].
    + left. exists (EvPost url vp :: EvOutcome (Post env n url b) :: t'), url', vp', r.
      done.
    + right. exists alert', vp', err. done.
Qed.

(** When the message of an alert cannot be encoded, that alert and those
    after it are not dispatched. *)
Lemma loopRun_encoding n alerts t flow :
  run n alerts t flow →
  ∀ j alert, alerts !! j = Some alert →
    (∀ vp, builtFor env wm d displayName alert vp → ∃ err, Marshal env vp = Failed err) →
    (length (dispatches t) ≤ j)%nat.
Proof.
  induction 1 as [n|n alert rest vp err Hb Hm|n alert rest vp b Hb Hm Hacc
                 |n alert rest vp b t flow Hb Hm Hacc Hrun IH];
    intros j a Hj Hfail; cbn; try lia.
  - destruct j as [|j]; cbn in Hj; [|lia].
    injection Hj as <-. destruct (Hfail vp Hb) as [err Herr]. congruence.
  - destruct j as [|j]; cbn in Hj.
    + injection Hj as <-. destruct (Hfail vp Hb) as [err Herr]. congruence.
    + specialize (IH j a Hj Hfail). lia.
Qed.
End LoopRun.

(** ** The branches of the handler *)

Lemma credentials_present req :
  queryParam (Query req) victoropsApikeyParam ≠ "" →
  queryParam (Query req) victoropsRoutingkeyParam ≠ "" →
  String.eqb (queryParam (Query req) victoropsApikeyParam) ""
  || String.eqb (queryParam (Query req) victoropsRoutingkeyParam) "" = false.
Proof.
  intros Ha Hr. apply orb_false_intro; by apply String.eqb_neq.
Qed.

(** A request with status "firing" and both credentials runs the loop over
    its alerts. *)
Lemma serve_firing env req wm d :
  routed req wm d "firing" →
  victorops env req =
    forRange (sliceElems (Alerts d))
      (firingAlert env wm d
         (queryParam (Query req) victoropsApikeyParam)
         (queryParam (Query req) victoropsRoutingkeyParam)
         (Join (Values env (GroupLabels d)) ":")).
Proof.
  intros (Hb & Hd & Hs & Ha & Hr). unfold victorops.
  rewrite Hb, Hd, credentials_present, Hs by done. reflexivity.
Qed.

(** A request with status "resolved" and both credentials runs the resolved
    branch. *)
Lemma serve_resolved env req wm d :
  routed req wm d "resolved" →
  victorops env req =
    resolved env wm
      (queryParam (Query req) victoropsApikeyParam)
      (queryParam (Query req) victoropsRoutingkeyParam)
      (Join (Values env (GroupLabels d)) ":").
Proof.
  intros (Hb & Hd & Hs & Ha & Hr). unfold victorops.
  rewrite Hb, Hd, credentials_present, Hs by done. reflexivity.
Qed.

(** The run of the loop that a firing request makes. *)
Lemma serve_firing_run env req wm d :
  routed req wm d "firing" →
  ∃ flow,
    loopRun env wm d (requestURL req) (Join (Values env (GroupLabels d)) ":")
      0 (sliceElems (Alerts d)) (trace (serve env req)) flow.
Proof.
  intros Hr. unfold serve. rewrite (serve_firing env req wm d Hr).
  destruct (forRange_loopRun env wm d
              (queryParam (Query req) victoropsApikeyParam)
              (queryParam (Query req) victoropsRoutingkeyParam)
              (Join (Values env (GroupLabels d)) ":")
              (sliceElems (Alerts d)) initState) as (t & Ht & Hrun).
  cbn [trace initState app] in Ht. rewrite Ht. eexists. exact Hrun.
Qed.

(** ** Sample requests are routed *)

Lemma sampleRequest_routed status alerts :
  routed (sampleRequest status alerts) (sampleMessage status alerts)
         (sampleData status alerts) status.
Proof. repeat split; intros H; vm_compute in H; discriminate H. Defined.

Lemma inOrder_success_allAccepted : allAccepted (inOrder (λ _, Done successResponse)).
Proof. split; [intros vp; eexists; reflexivity | intros; reflexivity]. Defined.

(** ** The statuses that the branches set *)

Lemma write_branchStatus text w : branchStatus w → branchStatus (write text w).
Proof.
  unfold branchStatus, write, writeHeader.
  destruct w as [[c|] wr]; cbn; intros [H|[H|[H|H]]]; simplify_eq; auto.
Qed.

Lemma writeHeader_branchStatus code w :
  code = 500 ∨ code = 502 → branchStatus w → branchStatus (writeHeader code w).
Proof.
  unfold branchStatus, writeHeader.
  destruct w as [[c|] wr]; cbn; intros [->| ->] [H|[H|[H|H]]]; simplify_eq; auto.
Qed.

(** A turn of the firing loop sets no other status than 200, 500 or 502. *)
Lemma firingAlert_branchStatus env wm d apiKey routingKey displayName alert s :
  branchStatus (rw s) →
  branchStatus (rw (firingAlert env wm d apiKey routingKey displayName alert s).2).
Proof.
  intros Hs.
  destruct (firingAlert_step env wm d apiKey routingKey displayName alert s)
    as (vp & _ & Hstep).
  destruct (Marshal env vp) as [b|err].
  - cbn zeta in Hstep. destruct Hstep as (_ & _ & _ & ->).
    destruct (Post env (nPost s) (victoropsURL apiKey routingKey) b) as [resp|err].
    + assert (branchStatus
                match DecodeErr resp with
                | Some err =>
                    write ("Could not decode VictorOps response body: " +:+ err) (rw s)
                | None => rw s
                end) as Hw.
      { destruct (DecodeErr resp); [by apply write_branchStatus | done]. }
      destruct (StatusCode resp ÷ 100 =? 2); [done|].
      apply write_branchStatus, writeHeader_branchStatus; auto.
    + apply write_branchStatus, writeHeader_branchStatus; auto.
  - destruct Hstep as (_ & _ & _ & ->).
    apply write_branchStatus, writeHeader_branchStatus; auto.
Qed.

Lemma forRange_branchStatus env wm d apiKey routingKey displayName alerts : ∀ s,
  branchStatus (rw s) →
  branchStatus
    (rw (forRange alerts (firingAlert env wm d apiKey routingKey displayName) s).2).
Proof.
  induction alerts as [|alert rest IH]; intros s Hs; [done|].
  rewrite forRange_cons.
  pose proof (firingAlert_branchStatus env wm d apiKey routingKey displayName
                alert s Hs) as Hstep.
  destruct (firingAlert env wm d apiKey routingKey displayName alert s)
    as [[[]|] s1]; cbn [snd] in *; auto.
Qed.

(** The resolved branch in full: the message it builds, the events and the
    reply to the caller for each outcome. *)
Lemma resolved_run env wm apiKey routingKey displayName s :
  let url := victoropsURL apiKey routingKey in
  let vp := {| MessageType := "RECOVERY";
               EntityID := FormatUint (GroupKey wm);
               Timestamp := Now env (nNow s);
               StateStartTime := 0;
               StateMessage := "Entity recovered";
               MonitoringTool := "Prometheus Alertmanager";
               EntityDisplayName := displayName;
               AckMessage := "";
               AckAuthor := "" |} in
  let s' := (resolved env wm apiKey routingKey displayName s).2 in
  match Marshal env vp with
  | Failed err =>
      trace s' = trace s ∧
      rw s' = write ("Failed to marshall victoropsPost: " +:+ err)
                    (writeHeader 500 (rw s))
  | Done b =>
      let r := Post env (nPost s) url b in
      trace s' = (trace s ++ [EvPost url vp; EvOutcome r])%list ∧
      rw s' =
        match r with
        | Failed err =>
            write ("Failed post to VictorOps REST api: " +:+ err)
                  (writeHeader 502 (rw s))
        | Done resp =>
            match DecodeErr resp with
            | Some err =>
                write ("Could not decode VictorOps response body: " +:+ err)
                      (writeHeader 502 (rw s))
            | None =>
                if Z.quot (StatusCode resp) 100 =? 2 then rw s
                else write ("Unexpected status code "
                            +:+ Message (Decoded resp)
                            +:+ " from VictorOps: ")
                           (writeHeader 502 (rw s))
            end
        end
  end.
Proof.
  intros url vp s'. subst s'. unfold resolved. run_handler. fold vp.
  destruct (Marshal env vp) as [b|err]; [|split; reflexivity].
  cbn zeta. cbn [nPost rw trace nNow nRange fst snd]. fold url.
  destruct (Post env (nPost s) url b) as [resp|err]; cbn.
  2: { split; reflexivity. }
  destruct (DecodeErr resp); cbn; [split; reflexivity|].
  destruct (StatusCode resp ÷ 100 =? 2); cbn; split; reflexivity.
Qed.

Lemma resolved_branchStatus env wm apiKey routingKey displayName s :
  branchStatus (rw s) →
  branchStatus (rw (resolved env wm apiKey routingKey displayName s).2).
Proof.
  intros Hs.
  pose proof (resolved_run env wm apiKey routingKey displayName s) as Hrun.
  cbn zeta in Hrun.
  destruct (Marshal env _) as [b|err].
  - destruct Hrun as [_ ->].
    destruct (Post env _ _ b) as [resp|err].
    + destruct (DecodeErr resp).
      * apply write_branchStatus, writeHeader_branchStatus; auto.
      * destruct (StatusCode resp ÷ 100 =? 2); [done|].
        apply write_branchStatus, writeHeader_branchStatus; auto.
    + apply write_branchStatus, writeHeader_branchStatus; auto.
  - destruct Hrun as [_ ->].
    apply write_branchStatus, writeHeader_branchStatus; auto.
Qed.

(** A request that passes the guards is answered by one of the branches. *)
Lemma serve_branchStatus env req :
  passesGuards req → branchStatus (rw (serve env req)).
Proof.
  intros (wm & d & [Hr|Hr]); unfold serve.
  - rewrite (serve_firing env req wm d Hr).
    apply forRange_branchStatus. by left.
  - rewrite (serve_resolved env req wm d Hr).
    apply resolved_branchStatus. by left.
Qed.

(** * The claims *)

(** ** C1: the dispatches of a firing message *)




(** ** C3: the message kind of a firing alert *)

(** C3: in the firing branch the i-th dispatched message is for the i-th
    alert; when that alert has a non-empty label [victorops_message_type],
    the message kind is the value of the label, and when the label is absent
    or empty the message kind is CRITICAL. *)
Theorem firing_message_kind env req wm d i url vp :
  routed req wm d "firing" →
  dispatches (trace (serve env req)) !! i = Some (url, vp) →
  ∃ alert, sliceElems (Alerts d) !! i = Some alert ∧
    (∀ v, Labels alert !! "victorops_message_type" = Some v → v ≠ "" →
          MessageType vp = v) ∧
    (Labels alert !! "victorops_message_type" = None ∨
     Labels alert !! "victorops_message_type" = Some "" →
     MessageType vp = "CRITICAL").
Proof.
  intros Hr Hi.
  destruct (serve_firing_run env req wm d Hr) as [flow Hrun].
  destruct (loopRun_dispatches _ _ _ _ _ _ _ _ _ Hrun i url vp Hi)
    as (_ & alert & Ha & Hb).
  exists alert. split; [done|].
  rewrite (builtFor_kind _ _ _ _ _ _ Hb). split.
  - intros v -> Hv. apply String.eqb_neq in Hv. by rewrite Hv.
  - intros [-> | ->]; done.
Qed.

Lemma firing_message_kind_witness :
  let env := inOrder (λ _, Done successResponse) in
  let req := sampleRequest "firing" (Some [warningAlert; plainAlert]) in
  ∃ url0 vp0 url1 vp1,
    dispatches (trace (serve env req)) = [(url0, vp0); (url1, vp1)] ∧
    Labels warningAlert !! "victorops_message_type" = Some "WARNING" ∧
    MessageType vp0 = "WARNING" ∧
    Labels plainAlert !! "victorops_message_type" = None ∧
    MessageType vp1 = "CRITICAL".
Proof.
  eexists _, _, _, _. split; [vm_compute; reflexivity|].
  split; [vm_compute; reflexivity|].
  split.
  - destruct (firing_message_kind (inOrder (λ _, Done successResponse))
                (sampleRequest "firing" (Some [warningAlert; plainAlert]))
                (sampleMessage "firing" (Some [warningAlert; plainAlert]))
                (sampleData "firing" (Some [warningAlert; plainAlert]))
                0 _ _
                (sampleRequest_routed "firing" (Some [warningAlert; plainAlert]))
                ltac:(vm_compute; reflexivity))
      as (alert & Ha & Hset & _).
    injection Ha as <-. apply Hset; [vm_compute; reflexivity | discriminate].
  - split; [vm_compute; reflexivity|].
    destruct (firing_message_kind (inOrder (λ _, Done successResponse))
                (sampleRequest "firing" (Some [warningAlert; plainAlert]))
                (sampleMessage "firing" (Some [warningAlert; plainAlert]))
                (sampleData "firing" (Some [warningAlert; plainAlert]))
                1 _ _
                (sampleRequest_routed "firing" (Some [warningAlert; plainAlert]))
                ltac:(vm_compute; reflexivity))
      as (alert & Ha & _ & Hunset).
    injection Ha as <-. apply Hunset. left. vm_compute. reflexivity.
Defined.

(** ** C5: the state message of a firing alert *)

(** C5, as stated, fails: for the alert without labels and annotations the
    state message is not made of a "source: " line and an "aggregator: "
    line, with or without a final line feed. *)
Lemma firing_state_message_counterexample :
  let env := inOrder (λ _, Done successResponse) in
  let req := sampleRequest "firing" (Some [bareAlert]) in
  ∃ url vp,
    dispatches (trace (serve env req)) = [(url, vp)] ∧
    map_to_list (Annotations bareAlert) = [] ∧
    map_to_list (Labels bareAlert) = [] ∧
    StateMessage vp ≠
      "source: " +:+ GeneratorURL bareAlert +:+ nl
      +:+ "aggregator: " +:+ ExternalURL (sampleData "firing" (Some [bareAlert])) ∧
    StateMessage vp ≠
      "source: " +:+ GeneratorURL bareAlert +:+ nl
      +:+ "aggregator: " +:+ ExternalURL (sampleData "firing" (Some [bareAlert]))
      +:+ nl.
Proof.
  eexists _, _. split; [vm_compute; reflexivity|].
  repeat split; try (vm_compute; reflexivity); vm_compute; discriminate.
Qed.

(** C5, amended: in the firing branch the state message of the i-th
    dispatched message is made of one line "key: value" for every annotation
    of the i-th alert, in the order the runtime enumerates them, then one
    such line for every label, then the line "Prometheus: <generatorURL>"
    and, without a line feed after it, "Alertmanager: <externalURL>". *)
Theorem firing_state_message env req wm d i url vp :
  routed req wm d "firing" →
  dispatches (trace (serve env req)) !! i = Some (url, vp) →
  ∃ alert annotations labels,
    sliceElems (Alerts d) !! i = Some alert ∧
    annotations ≡ₚ map_to_list (Annotations alert) ∧
    labels ≡ₚ map_to_list (Labels alert) ∧
    StateMessage vp =
      entryLines annotations +:+ entryLines labels
      +:+ "Prometheus: " +:+ GeneratorURL alert +:+ nl
      +:+ "Alertmanager: " +:+ ExternalURL d.
Proof.
  intros Hr Hi.
  destruct (serve_firing_run env req wm d Hr) as [flow Hrun].
  destruct (loopRun_dispatches _ _ _ _ _ _ _ _ _ Hrun i url vp Hi)
    as (_ & alert & Ha & Hb).
  destruct (builtFor_message _ _ _ _ _ _ Hb) as (annotations & labels & H1 & H2 & H3).
  exists alert, annotations, labels. done.
Qed.

Lemma firing_state_message_witness :
  let env := inOrder (λ _, Done successResponse) in
  let req := sampleRequest "firing" (Some [warningAlert]) in
  ∃ url vp annotations labels,
    dispatches (trace (serve env req)) !! 0%nat = Some (url, vp) ∧
    annotations ≡ₚ map_to_list (Annotations warningAlert) ∧
    labels ≡ₚ map_to_list (Labels warningAlert) ∧
    StateMessage vp =
      entryLines annotations +:+ entryLines labels
      +:+ "Prometheus: " +:+ "http://prometheus/graph" +:+ nl
      +:+ "Alertmanager: " +:+ "http://alertmanager".
Proof.
  eexists _, _.
  destruct (firing_state_message (inOrder (λ _, Done successResponse))
              (sampleRequest "firing" (Some [warningAlert]))
              (sampleMessage "firing" (Some [warningAlert]))
              (sampleData "firing" (Some [warningAlert]))
              0 _ _
              (sampleRequest_routed "firing" (Some [warningAlert]))
              ltac:(vm_compute; reflexivity))
    as (alert & annotations & labels & Ha & H1 & H2 & H3).
  injection Ha as <-. exists annotations, labels.
  split; [vm_compute; reflexivity|]. split; [exact H1|]. split; [exact H2|exact H3].
Defined.

(** ** C9: the state message across runs *)

(** A list with at most one element has no other permutation. *)
Lemma Permutation_short {A} (l k : list A) :
  l ≡ₚ k → (length k ≤ 1)%nat → l = k.
Proof.
  intros Hp Hk. destruct k as [|x [|y k]]; cbn in Hk; [| |lia].
  - by apply Permutation_nil_r.
  - by apply Permutation_singleton_r.
Qed.

(** C9, as stated, fails: on the same inbound message, two runs in which
    the runtime enumerates the maps in different orders (here: one order and
    its reverse) build different state messages. *)
Lemma state_message_counterexample :
  let req := sampleRequest "firing" (Some [warningAlert]) in
  let run1 := serve (inOrder (λ _, Done successResponse)) req in
  let run2 := serve (inReverse (λ _, Done successResponse)) req in
  (λ sent, StateMessage sent.2) <$> dispatches (trace run1)
  ≠ (λ sent, StateMessage sent.2) <$> dispatches (trace run2).
Proof. vm_compute. discriminate. Qed.

(** C9, amended: the state message is a function of the inbound message up
    to the order in which the runtime enumerates the maps.  In two runs on
    the same message, the state message of the i-th dispatch is made, in
    each run, of one line for every annotation of the i-th alert, in some
    order, then one line for every label, in some order, then the same two
    URL lines: the annotation lines of the two runs are permutations of each
    other, and so are the label lines.  The two state messages are equal
    when the alert has at most one annotation and at most one label. *)
Theorem state_message_up_to_order env1 env2 req wm d i url1 vp1 url2 vp2 :
  routed req wm d "firing" →
  dispatches (trace (serve env1 req)) !! i = Some (url1, vp1) →
  dispatches (trace (serve env2 req)) !! i = Some (url2, vp2) →
  ∃ alert annotations1 labels1 annotations2 labels2,
    sliceElems (Alerts d) !! i = Some alert ∧
    annotations1 ≡ₚ map_to_list (Annotations alert) ∧
    annotations2 ≡ₚ map_to_list (Annotations alert) ∧
    labels1 ≡ₚ map_to_list (Labels alert) ∧
    labels2 ≡ₚ map_to_list (Labels alert) ∧
    annotations1 ≡ₚ annotations2 ∧ labels1 ≡ₚ labels2 ∧
    StateMessage vp1 =
      entryLines annotations1 +:+ entryLines labels1
      +:+ "Prometheus: " +:+ GeneratorURL alert +:+ nl
      +:+ "Alertmanager: " +:+ ExternalURL d ∧
    StateMessage vp2 =
      entryLines annotations2 +:+ entryLines labels2
      +:+ "Prometheus: " +:+ GeneratorURL alert +:+ nl
      +:+ "Alertmanager: " +:+ ExternalURL d ∧
    ((size (Annotations alert) ≤ 1)%nat → (size (Labels alert) ≤ 1)%nat →
     StateMessage vp1 = StateMessage vp2).
Proof.
  intros Hr H1 H2.
  destruct (serve_firing_run env1 req wm d Hr) as [flow1 Hrun1].
  destruct (serve_firing_run env2 req wm d Hr) as [flow2 Hrun2].
  destruct (loopRun_dispatches _ _ _ _ _ _ _ _ _ Hrun1 i url1 vp1 H1)
    as (_ & alert & Ha & Hb1).
  destruct (loopRun_dispatches _ _ _ _ _ _ _ _ _ Hrun2 i url2 vp2 H2)
    as (_ & alert' & Ha' & Hb2).
  assert (alert' = alert) as -> by congruence.
  destruct (builtFor_message _ _ _ _ _ _ Hb1) as (a1 & l1 & Ha1 & Hl1 & Hm1).
  destruct (builtFor_message _ _ _ _ _ _ Hb2) as (a2 & l2 & Ha2 & Hl2 & Hm2).
  exists alert, a1, l1, a2, l2.
  split; [done|]. split; [done|]. split; [done|]. split; [done|]. split; [done|].
  split; [by rewrite Ha1, Ha2|]. split; [by rewrite Hl1, Hl2|].
  split; [done|]. split; [done|].
  intros Hsa Hsl. rewrite Hm1, Hm2.
  rewrite <- length_map_to_list in Hsa, Hsl.
  rewrite (Permutation_short _ _ Ha1 Hsa), (Permutation_short _ _ Ha2 Hsa).
  rewrite (Permutation_short _ _ Hl1 Hsl), (Permutation_short _ _ Hl2 Hsl).
  reflexivity.
Qed.

Lemma state_message_up_to_order_witness :
  let req := sampleRequest "firing" (Some [warningAlert; bareAlert]) in
  let run1 := serve (inOrder (λ _, Done successResponse)) req in
  let run2 := serve (inReverse (λ _, Done successResponse)) req in
  (∃ url1 vp1 url2 vp2 annotations1 labels1 annotations2 labels2,
     dispatches (trace run1) !! 0%nat = Some (url1, vp1) ∧
     dispatches (trace run2) !! 0%nat = Some (url2, vp2) ∧
     size (Labels warningAlert) = 2%nat ∧
     annotations1 ≡ₚ map_to_list (Annotations warningAlert) ∧
     annotations2 ≡ₚ map_to_list (Annotations warningAlert) ∧
     labels1 ≡ₚ map_to_list (Labels warningAlert) ∧
     labels2 ≡ₚ map_to_list (Labels warningAlert) ∧
     labels1 ≡ₚ labels2 ∧
     StateMessage vp1 =
       entryLines annotations1 +:+ entryLines labels1
       +:+ "Prometheus: " +:+ "http://prometheus/graph" +:+ nl
       +:+ "Alertmanager: " +:+ "http://alertmanager" ∧
     StateMessage vp2 =
       entryLines annotations2 +:+ entryLines labels2
       +:+ "Prometheus: " +:+ "http://prometheus/graph" +:+ nl
       +:+ "Alertmanager: " +:+ "http://alertmanager" ∧
     StateMessage vp1 ≠ StateMessage vp2)
  ∧ (∃ url1 vp1 url2 vp2,
       dispatches (trace run1) !! 1%nat = Some (url1, vp1) ∧
       dispatches (trace run2) !! 1%nat = Some (url2, vp2) ∧
       StateMessage vp1 = StateMessage vp2).
Proof.
  split.
  - eexists _, _, _, _.
    assert (routed (sampleRequest "firing" (Some [warningAlert; bareAlert]))
              (sampleMessage "firing" (Some [warningAlert; bareAlert]))
              (sampleData "firing" (Some [warningAlert; bareAlert])) "firing")
      as Hr by apply sampleRequest_routed.
    destruct (state_message_up_to_order
                (inOrder (λ _, Done successResponse))
                (inReverse (λ _, Done successResponse))
                (sampleRequest "firing" (Some [warningAlert; bareAlert]))
                (sampleMessage "firing" (Some [warningAlert; bareAlert]))
                (sampleData "firing" (Some [warningAlert; bareAlert]))
                0 _ _ _ _ Hr
                ltac:(vm_compute; reflexivity) ltac:(vm_compute; reflexivity))
      as (alert & a1 & l1 & a2 & l2 & Ha & Ha1 & Ha2 & Hl1 & Hl2 & _ & Hll
          & Hm1 & Hm2 & _).
    injection Ha as <-. exists a1, l1, a2, l2.
    split; [vm_compute; reflexivity|]. split; [vm_compute; reflexivity|].
    split; [vm_compute; reflexivity|].
    split; [exact Ha1|]. split; [exact Ha2|]. split; [exact Hl1|].
    split; [exact Hl2|]. split; [exact Hll|]. split; [exact Hm1|].
    split; [exact Hm2|]. vm_compute. discriminate.
  - eexists _, _, _, _.
    split; [vm_compute; reflexivity|]. split; [vm_compute; reflexivity|].
    destruct (state_message_up_to_order
                (inOrder (λ _, Done successResponse))
                (inReverse (λ _, Done successResponse))
                (sampleRequest "firing" (Some [warningAlert; bareAlert]))
                (sampleMessage "firing" (Some [warningAlert; bareAlert]))
                (sampleData "firing" (Some [warningAlert; bareAlert]))
                1 _ _ _ _
                (sampleRequest_routed "firing" (Some [warningAlert; bareAlert]))
                ltac:(vm_compute; reflexivity) ltac:(vm_compute; reflexivity))
      as (alert & a1 & l1 & a2 & l2 & Ha & _ & _ & _ & _ & _ & _ & _ & _ & Heq).
    injection Ha as <-. apply Heq; vm_compute; lia.
Defined.

(** ** C8: dispatches are sequential and stop at the first failure *)

Section LoopOrder.
Context (env : Env) (wm : WebhookMessage) (d : template_Data).
Context (url displayName : string).

(** In a run of the loop, the event after a dispatch is its outcome. *)
Lemma loopRun_outcome_follows n alerts t flow :
  loopRun env wm d url displayName n alerts t flow →
  ∀ t1 url' vp t2, t = (t1 ++ EvPost url' vp :: t2)%list →
    ∃ r t3, t2 = EvOutcome r :: t3.
Proof.
  induction 1 as [n|n alert rest vp err Hb Hm|n alert rest vp b Hb Hm Hacc
                 |n alert rest vp b t flow Hb Hm Hacc Hrun IH];
    intros t1 url' vp' t2 Ht.
  - by destruct t1.
  - by destruct t1.
  - destruct t1 as [|e1 [|e2 [|e3 t1]]]; simplify_eq/=; eauto.
  - destruct t1 as [|e1 [|e2 t1]]; simplify_eq/=; eauto.
Qed.

(** In a run of the loop, nothing happens after an outcome that is not an
    acceptance. *)
Lemma loopRun_after_failure n alerts t flow :
  loopRun env wm d url displayName n alerts t flow →
  ∀ t1 r t2, t = (t1 ++ EvOutcome r :: t2)%list → accepted r = false →
    t2 = [].
Proof.
  induction 1 as [n|n alert rest vp err Hb Hm|n alert rest vp b Hb Hm Hacc
                 |n alert rest vp b t flow Hb Hm Hacc Hrun IH];
    intros t1 r t2 Ht Hr.
  - by destruct t1.
  - by destruct t1.
  - destruct t1 as [|e1 [|e2 [|e3 t1]]]; simplify_eq/=; eauto.
  - destruct t1 as [|e1 [|e2 t1]]; simplify_eq/=; eauto. congruence.
Qed.
End LoopOrder.

(** C8: in the firing branch the trace of the request is sequential: every
    dispatch is followed at once by its own outcome, so that the next
    dispatch starts only when that outcome is known; after an outcome that
    is a failure (the post failed, or the downstream answered with a status
    outside 2xx) nothing more is dispatched; and when the message of an
    alert does not encode, that alert and the ones after it are not
    dispatched.  When fewer dispatches than alerts were made, a failed
    dispatch or a failed encoding is the reason. *)
Theorem firing_sequential_abort env req wm d :
  routed req wm d "firing" →
  let alerts := sliceElems (Alerts d) in
  let t := trace (serve env req) in
  let displayName := Join (Values env (GroupLabels d)) ":" in
  sequential t = true ∧
  (∀ t1 url vp t2, t = (t1 ++ EvPost url vp :: t2)%list →
     ∃ r t3, t2 = EvOutcome r :: t3) ∧
  (∀ t1 r t2, t = (t1 ++ EvOutcome r :: t2)%list → accepted r = false →
     t2 = []) ∧
  (∀ j alert, alerts !! j = Some alert →
     (∀ vp, builtFor env wm d displayName alert vp →
            ∃ err, Marshal env vp = Failed err) →
     (length (dispatches t) ≤ j)%nat) ∧
  ((length (dispatches t) < length alerts)%nat →
     (∃ t' url vp r, t = (t' ++ [EvPost url vp; EvOutcome r])%list ∧
                     accepted r = false)
     ∨ (∃ alert vp err, alerts !! length (dispatches t) = Some alert ∧
                        builtFor env wm d displayName alert vp ∧
                        Marshal env vp = Failed err)).
Proof.
  intros Hr alerts t displayName.
  destruct (serve_firing_run env req wm d Hr) as [flow Hrun].
  split; [eapply loopRun_sequential, Hrun|].
  split; [eapply loopRun_outcome_follows, Hrun|].
  split; [eapply loopRun_after_failure, Hrun|].
  split; [eapply loopRun_encoding, Hrun|].
  eapply loopRun_stopped, Hrun.
Qed.

Lemma firing_sequential_abort_witness :
  let env := inOrder (λ n, match n with
                           | O => Done successResponse
                           | _ => Failed "connection refused"
                           end) in
  let req := sampleRequest "firing" (Some [warningAlert; plainAlert; bareAlert]) in
  sequential (trace (serve env req)) = true ∧
  length (dispatches (trace (serve env req))) = 2%nat.
Proof.
  split; [|vm_compute; reflexivity].
  apply (firing_sequential_abort
           (inOrder (λ n, match n with
                          | O => Done successResponse
                          | _ => Failed "connection refused"
                          end))
           (sampleRequest "firing" (Some [warningAlert; plainAlert; bareAlert]))
           (sampleMessage "firing" (Some [warningAlert; plainAlert; bareAlert]))
           (sampleData "firing" (Some [warningAlert; plainAlert; bareAlert]))
           (sampleRequest_routed "firing" (Some [warningAlert; plainAlert; bareAlert]))).
Defined.

(** ** C10: a firing message without alerts *)

(** C10: a firing request with valid credentials whose body decoded to a
    message with zero alerts makes no dispatch (no outbound call at all),
    writes nothing, and the caller receives status 200. *)
Theorem firing_no_alerts env req wm d :
  routed req wm d "firing" →
  sliceElems (Alerts d) = [] →
  dispatches (trace (serve env req)) = [] ∧
  trace (serve env req) = [] ∧
  responseStatus (serve env req) = 200 ∧
  responseBody (serve env req) = "".
Proof.
  intros Hr Hnone. unfold serve.
  rewrite (serve_firing env req wm d Hr), Hnone. cbn. done.
Qed.

Lemma firing_no_alerts_witness :
  let env := inOrder (λ _, Failed "connection refused") in
  let req := sampleRequest "firing" (Some []) in
  dispatches (trace (serve env req)) = [] ∧
  trace (serve env req) = [] ∧
  responseStatus (serve env req) = 200 ∧
  responseBody (serve env req) = "".
Proof.
  apply (firing_no_alerts (inOrder (λ _, Failed "connection refused"))
           (sampleRequest "firing" (Some []))
           (sampleMessage "firing" (Some []))
           (sampleData "firing" (Some []))
           (sampleRequest_routed "firing" (Some []))).
  reflexivity.
Defined.

(** ** The resolved branch *)

(** A field with the zero value is not written: a message whose
    state-start time is zero goes out without the key [state_start_time]. *)
Lemma jsonKeys_no_start vp :
  StateStartTime vp = 0 → "state_start_time" ∉ jsonKeys vp.
Proof.
  assert (∀ key value, key ≠ "state_start_time" →
            "state_start_time" ∉ keyUnlessEmpty key value) as Hempty.
  { intros key value Hkey. unfold keyUnlessEmpty.
    destruct (String.eqb value ""); [apply not_elem_of_nil|].
    intros Hin%list_elem_of_singleton. congruence. }
  intros H0. unfold jsonKeys. rewrite H0.
  rewrite !not_elem_of_app.
  repeat split; try (apply Hempty; discriminate).
  - intros Hin%list_elem_of_singleton. discriminate.
  - unfold keyUnlessZero. destruct (Timestamp vp =? 0); [apply not_elem_of_nil|].
    intros Hin%list_elem_of_singleton. discriminate.
  - apply not_elem_of_nil.
Qed.

Section Resolved.
Context (env : Env) (wm : WebhookMessage).
Context (apiKey routingKey displayName : string).

Local Abbreviation url := (victoropsURL apiKey routingKey).

(** The resolved branch builds one recovery message; when it encodes, it
    is posted, once, and the reply to the caller follows from the outcome
    of that post. *)
Lemma resolved_step s :
  ∃ vp,
    MessageType vp = "RECOVERY" ∧
    EntityID vp = FormatUint (GroupKey wm) ∧
    StateStartTime vp = 0 ∧
    StateMessage vp = "Entity recovered" ∧
    match Marshal env vp with
    | Failed err =>
        trace (resolved env wm apiKey routingKey displayName s).2 = trace s
    | Done b =>
        let r := Post env (nPost s) url b in
        trace (resolved env wm apiKey routingKey displayName s).2
          = (trace s ++ [EvPost url vp; EvOutcome r])%list ∧
        rw (resolved env wm apiKey routingKey displayName s).2
          = match r with
            | Failed err =>
                write ("Failed post to VictorOps REST api: " +:+ err)
                      (writeHeader 502 (rw s))
            | Done resp =>
                match DecodeErr resp with
                | Some err =>
                    write ("Could not decode VictorOps response body: " +:+ err)
                          (writeHeader 502 (rw s))
                | None =>
                    if Z.quot (StatusCode resp) 100 =? 2 then rw s
                    else write ("Unexpected status code "
                                +:+ Message (Decoded resp)
                                +:+ " from VictorOps: ")
                               (writeHeader 502 (rw s))
                end
            end
    end.
Proof.
  unfold resolved. run_handler.
  exists {| MessageType := "RECOVERY";
            EntityID := FormatUint (GroupKey wm);
            Timestamp := Now env (nNow s);
            StateStartTime := 0;
            StateMessage := "Entity recovered";
            MonitoringTool := "Prometheus Alertmanager";
            EntityDisplayName := displayName;
            AckMessage := "";
            AckAuthor := "" |}.
  split; [reflexivity|]. split; [reflexivity|].
  split; [reflexivity|]. split; [reflexivity|].
  match goal with |- context [Marshal env ?v] => destruct (Marshal env v) as [b|err] end.
  2: { reflexivity. }
  cbn zeta. cbn [nPost rw trace nNow nRange fst snd].
  destruct (Post env (nPost s) url b) as [resp|err]; cbn.
  2: { split; reflexivity. }
  destruct (DecodeErr resp); cbn; [split; reflexivity|].
  destruct (StatusCode resp ÷ 100 =? 2); cbn; split; reflexivity.
Qed.
End Resolved.

(** ** C2: the dispatch of a resolved message *)

(** C2, as stated, fails on the text of the state message: the recovery
    message of a resolved request does not say "entity recovered". *)
Lemma resolved_dispatch_counterexample :
  let env := inOrder (λ _, Done successResponse) in
  let req := sampleRequest "resolved" (Some [warningAlert; plainAlert]) in
  routed req (sampleMessage "resolved" (Some [warningAlert; plainAlert]))
         (sampleData "resolved" (Some [warningAlert; plainAlert])) "resolved" ∧
  ∃ url vp,
    dispatches (trace (serve env req)) = [(url, vp)] ∧
    StateMessage vp ≠ "entity recovered".
Proof.
  split; [apply sampleRequest_routed|].
  eexists _, _. split; [vm_compute; reflexivity|]. vm_compute. discriminate.
Qed.

(** C2, amended: for every inbound message with status "resolved" and valid
    credentials, whatever its alerts, and provided the message encodes, the
    handler issues exactly one dispatch; its message kind is RECOVERY, its
    state-start time is zero and so absent from what is sent, its state
    message is the fixed text "Entity recovered", and its entity identifier
    is the decimal string of the group key. *)
Theorem resolved_dispatch env req wm d :
  routed req wm d "resolved" →
  (∀ vp, ∃ b, Marshal env vp = Done b) →
  ∃ vp,
    dispatches (trace (serve env req)) = [(requestURL req, vp)] ∧
    MessageType vp = "RECOVERY" ∧
    StateStartTime vp = 0 ∧
("state_start_time" ∉ jsonKeys vp) ∧
    StateMessage vp = "Entity recovered" ∧
    EntityID vp = FormatUint (GroupKey wm).
Proof.
  intros Hr Hm. unfold serve. rewrite (serve_resolved env req wm d Hr).
  destruct (resolved_step env wm
              (queryParam (Query req) victoropsApikeyParam)
              (queryParam (Query req) victoropsRoutingkeyParam)
              (Join (Values env (GroupLabels d)) ":") initState)
    as (vp & Hk & He & Hs & Ht & Hstep).
  exists vp. destruct (Hm vp) as [b Hb]. rewrite Hb in Hstep.
  destruct Hstep as [Htrace _]. rewrite Htrace.
  split; [reflexivity|]. split; [done|]. split; [done|].
  split; [by apply jsonKeys_no_start|]. done.
Qed.

Lemma resolved_dispatch_witness :
  let env := inOrder (λ _, Done successResponse) in
  let req := sampleRequest "resolved" (Some [warningAlert; plainAlert]) in
  ∃ vp,
    dispatches (trace (serve env req)) = [(requestURL req, vp)] ∧
    MessageType vp = "RECOVERY" ∧
    StateStartTime vp = 0 ∧
("state_start_time" ∉ jsonKeys vp) ∧
    StateMessage vp = "Entity recovered" ∧
    EntityID vp = FormatUint 1234567890123.
Proof.
  apply (resolved_dispatch (inOrder (λ _, Done successResponse))
           (sampleRequest "resolved" (Some [warningAlert; plainAlert]))
           (sampleMessage "resolved" (Some [warningAlert; plainAlert]))
           (sampleData "resolved" (Some [warningAlert; plainAlert]))
           (sampleRequest_routed "resolved" (Some [warningAlert; plainAlert]))).
  intros vp. eexists. reflexivity.
Defined.

(** ** C4: a message without data, a message without alerts *)

(** C4, as stated, fails: a resolved request whose body decoded and whose
    alert collection is null is not rejected; it is dispatched, once, and
    the caller receives 200. *)
Lemma null_alerts_counterexample :
  let env := inOrder (λ _, Done successResponse) in
  let req := sampleRequest "resolved" None in
  Body req = Done (sampleMessage "resolved" None) ∧
  Data (sampleMessage "resolved" None) = Some (sampleData "resolved" None) ∧
  Alerts (sampleData "resolved" None) = None ∧
  responseStatus (serve env req) ≠ 400 ∧
  length (dispatches (trace (serve env req))) = 1%nat.
Proof.
  repeat split; try reflexivity. vm_compute. discriminate.
Qed.

(** C4, amended: for every inbound request whose body decodes but whose
    message has no data (the embedded [Data] pointer is nil), the handler
    responds 400 with the body "Missing fields request body" and makes no
    outbound call, whatever the query parameters are.  A null alert
    collection alone is not rejected: when the data is there, both
    credentials are given and the alert collection is null, a message with
    status "firing" leads to no outbound call and to status 200 with an
    empty body, and a message with status "resolved" is never answered with
    400 and, provided the message encodes, is dispatched once, as a
    recovery. *)
Theorem data_guard env req wm :
  Body req = Done wm →
  (Data wm = None →
     responseStatus (serve env req) = 400 ∧
     responseBody (serve env req) = "Missing fields request body" ∧
     trace (serve env req) = [])
  ∧ (∀ d, Data wm = Some d →
       Alerts d = None →
       queryParam (Query req) victoropsApikeyParam ≠ "" →
       queryParam (Query req) victoropsRoutingkeyParam ≠ "" →
       (Status d = "firing" →
          trace (serve env req) = [] ∧
          responseStatus (serve env req) = 200 ∧
          responseBody (serve env req) = "")
       ∧ (Status d = "resolved" →
            responseStatus (serve env req) ≠ 400 ∧
            ((∀ vp, ∃ b, Marshal env vp = Done b) →
             ∃ vp, dispatches (trace (serve env req)) = [(requestURL req, vp)] ∧
                   MessageType vp = "RECOVERY"))).
Proof.
  intros Hb. split.
  - intros Hd. unfold serve, victorops. rewrite Hb, Hd. cbn. done.
  - intros d Hd Hnull Ha Hk. split.
    + intros Hs.
      assert (routed req wm d "firing") as Hr by done.
      unfold serve. rewrite (serve_firing env req wm d Hr), Hnull. cbn. done.
    + intros Hs.
      assert (routed req wm d "resolved") as Hr by done.
      split.
      * assert (passesGuards req) as Hpass by (exists wm, d; by right).
        apply (serve_branchStatus env) in Hpass. unfold responseStatus.
        destruct Hpass as [H|[H|[H|H]]]; rewrite H; discriminate.
      * intros Hm. unfold serve. rewrite (serve_resolved env req wm d Hr).
        destruct (resolved_step env wm
                    (queryParam (Query req) victoropsApikeyParam)
                    (queryParam (Query req) victoropsRoutingkeyParam)
                    (Join (Values env (GroupLabels d)) ":") initState)
          as (vp & Hkind & _ & _ & _ & Hstep).
        exists vp. destruct (Hm vp) as [b Hbytes]. rewrite Hbytes in Hstep.
        destruct Hstep as [Htrace _]. rewrite Htrace. done.
Qed.

Lemma data_guard_witness :
  let env := inOrder (λ _, Done successResponse) in
  let noData := {| Body := Done {| Data := None; GroupKey := 0 |};
                   Query := sampleQuery |} in
  (responseStatus (serve env noData) = 400 ∧
   responseBody (serve env noData) = "Missing fields request body" ∧
   trace (serve env noData) = [])
  ∧ (trace (serve env (sampleRequest "firing" None)) = [] ∧
     responseStatus (serve env (sampleRequest "firing" None)) = 200 ∧
     responseBody (serve env (sampleRequest "firing" None)) = "")
  ∧ (responseStatus (serve env (sampleRequest "resolved" None)) ≠ 400 ∧
     ∃ vp, dispatches (trace (serve env (sampleRequest "resolved" None)))
           = [(requestURL (sampleRequest "resolved" None), vp)] ∧
           MessageType vp = "RECOVERY").
Proof.
  split; [|split].
  - destruct (data_guard (inOrder (λ _, Done successResponse))
                {| Body := Done {| Data := None; GroupKey := 0 |};
                   Query := sampleQuery |}
                {| Data := None; GroupKey := 0 |} eq_refl) as [Hnone _].
    exact (Hnone eq_refl).
  - destruct (data_guard (inOrder (λ _, Done successResponse))
                (sampleRequest "firing" None) (sampleMessage "firing" None)
                eq_refl) as [_ Hnull].
    destruct (sampleRequest_routed "firing" None) as (_ & _ & _ & Ha & Hk).
    destruct (Hnull (sampleData "firing" None) eq_refl eq_refl Ha Hk)
      as [Hfiring _].
    exact (Hfiring eq_refl).
  - destruct (data_guard (inOrder (λ _, Done successResponse))
                (sampleRequest "resolved" None) (sampleMessage "resolved" None)
                eq_refl) as [_ Hnull].
    destruct (sampleRequest_routed "resolved" None) as (_ & _ & _ & Ha & Hk).
    destruct (Hnull (sampleData "resolved" None) eq_refl eq_refl Ha Hk)
      as [_ Hresolved].
    destruct (Hresolved eq_refl) as [Hstatus Honce].
    split; [exact Hstatus|]. apply Honce. intros vp. eexists. reflexivity.
Defined.

(** ** The reply of the firing branch *)

Section FiringReply.
Context (env : Env) (wm : WebhookMessage) (d : template_Data).
Context (apiKey routingKey displayName : string).

Local Abbreviation url := (victoropsURL apiKey routingKey).
Local Abbreviation body := (firingAlert env wm d apiKey routingKey displayName).

(** Every downstream response decodes. *)
Hypothesis responses_decode :
  ∀ n u b resp, Post env n u b = Done resp → DecodeErr resp = None.

(** When every response decodes, the loop writes nothing as long as the
    dispatches are accepted: at its end the response writer is untouched
    or holds the reply to a failed encoding, unless the last event is a
    failed dispatch, whose reply it then holds, with status 502. *)
Lemma forRange_reply alerts : ∀ s,
  ∃ t, trace (forRange alerts body s).2 = (trace s ++ t)%list ∧
    (((∀ r, EvOutcome r ∈ t → accepted r = true) ∧
      (rw (forRange alerts body s).2 = rw s ∨
       ∃ err, rw (forRange alerts body s).2 =
                write ("Failed to marshall victoropsPost: " +:+ err)
                      (writeHeader 500 (rw s))))
     ∨ (∃ t' vp r,
          t = (t' ++ [EvPost url vp; EvOutcome r])%list ∧
          accepted r = false ∧
          rw (forRange alerts body s).2 =
            match r with
            | Failed err =>
                write ("Failed post to VictorOps REST api: " +:+ err)
                      (writeHeader 502 (rw s))
            | Done resp =>
                write ("Unexpected status code "
                       +:+ FormatInt (StatusCode resp)
                       +:+ " from VictorOps: " +:+ Message (Decoded resp))
                      (writeHeader 502 (rw s))
            end)).
Proof.
  induction alerts as [|alert rest IH]; intros s.
  - exists []. cbn. rewrite app_nil_r. split; [done|]. left. split; [|by left].
    intros r Hr. by apply elem_of_nil in Hr.
  - rewrite !forRange_cons.
    destruct (firingAlert_step env wm d apiKey routingKey displayName alert s)
      as (vp & Hvp & Hstep).
    destruct (body alert s) as [flow s1] eqn:Hbody. cbn [fst snd] in Hstep.
    destruct (Marshal env vp) as [b|err] eqn:Hm.
    + cbn zeta in Hstep. destruct Hstep as (Hflow & Htrace & Hn & Hrw).
      destruct (Post env (nPost s) url b) as [resp|err] eqn:Hpost.
      * rewrite (responses_decode _ _ _ _ Hpost) in Hrw. cbn zeta in Hrw.
        cbn [accepted] in Hflow.
        destruct (StatusCode resp ÷ 100 =? 2) eqn:Hcode; subst flow.
        -- destruct (IH s1) as (t & Ht & Hcases).
           exists (EvPost url vp :: EvOutcome (Done resp) :: t). split.
           { rewrite Ht, Htrace, <- app_assoc. done. }
           rewrite Hrw in Hcases.
           destruct Hcases as [[Hall Hw]|(t' & vp' & r & -> & Hr & Hw)].
           ++ left. split; [|done]. intros r Hr.
              apply elem_of_cons in Hr as [Hr|Hr]; [done|].
              apply elem_of_cons in Hr as [Hr|Hr]; [|by apply Hall].
              injection Hr as ->. done.
           ++ right. exists (EvPost url vp :: EvOutcome (Done resp) :: t'), vp', r.
              done.
        -- exists [EvPost url vp; EvOutcome (Done resp)]. cbn [fst snd].
           split; [done|]. right. exists [], vp, (Done resp).
           split; [done|]. split; [done|]. done.
      * cbn [accepted] in Hflow. subst flow.
        exists [EvPost url vp; EvOutcome (Failed err)]. cbn [fst snd].
        split; [done|]. right. exists [], vp, (Failed err). done.
    + destruct Hstep as (Hflow & Htrace & Hn & Hrw). subst flow.
      exists []. cbn [fst snd]. rewrite app_nil_r. split; [done|].
      left. split; [|right; by exists err].
      intros r Hr. by apply elem_of_nil in Hr.
Qed.
End FiringReply.

(** ** The reply to a rejected dispatch *)

(** In the firing branch, when every downstream response decodes and the
    last dispatch is rejected, the caller receives 502 and a body with the
    status code and the message of the downstream response. *)
Lemma firing_rejection_reply env req wm d t url vp resp :
  routed req wm d "firing" →
  (∀ n u b resp, Post env n u b = Done resp → DecodeErr resp = None) →
  trace (serve env req) = (t ++ [EvPost url vp; EvOutcome (Done resp)])%list →
  accepted (Done resp) = false →
  responseStatus (serve env req) = 502 ∧
  responseBody (serve env req) =
    "Unexpected status code " +:+ FormatInt (StatusCode resp)
    +:+ " from VictorOps: " +:+ Message (Decoded resp).
Proof.
  intros Hr Hdec Ht Hrej. unfold serve in *.
  rewrite (serve_firing env req wm d Hr) in *.
  destruct (forRange_reply env wm d
              (queryParam (Query req) victoropsApikeyParam)
              (queryParam (Query req) victoropsRoutingkeyParam)
              (Join (Values env (GroupLabels d)) ":") Hdec
              (sliceElems (Alerts d)) initState)
    as (t0 & Ht0 & [[Hall _]|(t' & vp' & r & -> & Hr' & Hw)]).
  - cbn [trace initState app] in Ht0. rewrite Ht0 in Ht. subst t0.
    rewrite Hall in Hrej; [done|].
    apply elem_of_app. right. apply elem_of_cons. right. apply elem_of_cons. by left.
  - cbn [trace initState app] in Ht0. rewrite Ht0 in Ht.
    change (t' ++ [EvPost (victoropsURL (queryParam (Query req) victoropsApikeyParam)
                             (queryParam (Query req) victoropsRoutingkeyParam)) vp';
                   EvOutcome r])%list
      with (t' ++ [EvPost (victoropsURL (queryParam (Query req) victoropsApikeyParam)
                             (queryParam (Query req) victoropsRoutingkeyParam)) vp']
               ++ [EvOutcome r])%list in Ht.
    change (t ++ [EvPost url vp; EvOutcome (Done resp)])%list
      with (t ++ [EvPost url vp] ++ [EvOutcome (Done resp)])%list in Ht.
    rewrite !app_assoc in Ht. apply app_inj_tail in Ht as [_ Hlast].
    injection Hlast as ->.
    unfold responseStatus, responseBody. rewrite Hw. cbn. done.
Qed.

(** In the resolved branch, when the response decodes and the dispatch is
    rejected, the caller receives 502 and a body with the message of the
    downstream response. *)
Lemma resolved_rejection_reply env req wm d url vp resp :
  routed req wm d "resolved" →
  trace (serve env req) = [EvPost url vp; EvOutcome (Done resp)] →
  DecodeErr resp = None →
  accepted (Done resp) = false →
  responseStatus (serve env req) = 502 ∧
  responseBody (serve env req) =
    "Unexpected status code " +:+ Message (Decoded resp) +:+ " from VictorOps: ".
Proof.
  intros Hr Ht Hdec Hrej. unfold serve in *.
  rewrite (serve_resolved env req wm d Hr) in *.
  destruct (resolved_step env wm
              (queryParam (Query req) victoropsApikeyParam)
              (queryParam (Query req) victoropsRoutingkeyParam)
              (Join (Values env (GroupLabels d)) ":") initState)
    as (vp0 & _ & _ & _ & _ & Hstep).
  destruct (Marshal env vp0) as [b|err].
  - cbn zeta in Hstep. cbn [nPost trace rw initState] in Hstep.
    destruct Hstep as [Htrace Hrw].
    rewrite Htrace in Ht. cbn [app] in Ht.
    injection Ht as _ _ Hpost. rewrite Hpost, Hdec in Hrw.
    cbn [accepted] in Hrej. rewrite Hrej in Hrw.
    unfold responseStatus, responseBody. rewrite Hrw. cbn. done.
  - rewrite Hstep in Ht. done.
Qed.


(** ** The reply of the firing branch to a failed dispatch *)

Lemma write_noErrorStatus text w :
  noErrorStatus w → noErrorStatus (write text w).
Proof.
  unfold noErrorStatus, write, writeHeader.
  destruct w as [[c|] wr]; cbn; intros [H|H]; simplify_eq; auto.
Qed.

(** A body write after a write that left no error status: the status the
    caller receives is 200, whatever status is set in between. *)
Lemma status_after_write text1 text2 code w :
  noErrorStatus w →
  wroteHeader (write text2 (writeHeader code (write text1 w))) = Some 200.
Proof.
  unfold noErrorStatus, write, writeHeader.
  destruct w as [[c|] wr]; cbn; intros [H|H]; simplify_eq; auto.
Qed.

Section FiringFailure.
Context (env : Env) (wm : WebhookMessage) (d : template_Data).
Context (apiKey routingKey displayName : string).

Local Abbreviation url := (victoropsURL apiKey routingKey).
Local Abbreviation body := (firingAlert env wm d apiKey routingKey displayName).

(** The events of the loop are all acceptances, or the last one is a failed
    dispatch; the response writer then holds what the last turn wrote on
    top of what the turns before it wrote, which are decode errors at
    most. *)
Lemma forRange_failure alerts : ∀ s,
  noErrorStatus (rw s) →
  ∃ t, trace (forRange alerts body s).2 = (trace s ++ t)%list ∧
    ((∀ r, EvOutcome r ∈ t → accepted r = true)
     ∨ (∃ t' vp r w,
          t = (t' ++ [EvPost url vp; EvOutcome r])%list ∧
          accepted r = false ∧
          noErrorStatus w ∧
          rw (forRange alerts body s).2 =
            match r with
            | Failed err =>
                write ("Failed post to VictorOps REST api: " +:+ err)
                      (writeHeader 502 w)
            | Done resp =>
                write ("Unexpected status code "
                       +:+ FormatInt (StatusCode resp)
                       +:+ " from VictorOps: " +:+ Message (Decoded resp))
                      (writeHeader 502
                         match DecodeErr resp with
                         | Some err =>
                             write ("Could not decode VictorOps response body: "
                                    +:+ err) w
                         | None => w
                         end)
            end)).
Proof.
  induction alerts as [|alert rest IH]; intros s Hs.
  - exists []. cbn. rewrite app_nil_r. split; [done|]. left.
    intros r Hr. by apply elem_of_nil in Hr.
  - rewrite !forRange_cons.
    destruct (firingAlert_step env wm d apiKey routingKey displayName alert s)
      as (vp & Hvp & Hstep).
    destruct (body alert s) as [flow s1] eqn:Hbody. cbn [fst snd] in Hstep.
    destruct (Marshal env vp) as [b|err] eqn:Hm.
    + cbn zeta in Hstep. destruct Hstep as (Hflow & Htrace & Hn & Hrw).
      destruct (Post env (nPost s) url b) as [resp|err] eqn:Hpost.
      * cbn [accepted] in Hflow. cbn zeta in Hrw.
        destruct (StatusCode resp ÷ 100 =? 2) eqn:Hcode; subst flow.
        -- destruct (IH s1) as (t & Ht & Hcases).
           { rewrite Hrw. destruct (DecodeErr resp); [|done].
             by apply write_noErrorStatus. }
           exists (EvPost url vp :: EvOutcome (Done resp) :: t). split.
           { rewrite Ht, Htrace, <- app_assoc. done. }
           destruct Hcases as [Hall|(t' & vp' & r & w & -> & Hr & Hw & Hrw')].
           ++ left. intros r Hr.
              apply elem_of_cons in Hr as [Hr|Hr]; [done|].
              apply elem_of_cons in Hr as [Hr|Hr]; [|by apply Hall].
              injection Hr as ->. done.
           ++ right. exists (EvPost url vp :: EvOutcome (Done resp) :: t'), vp', r, w.
              done.
        -- exists [EvPost url vp; EvOutcome (Done resp)]. cbn [fst snd].
           split; [done|]. right. exists [], vp, (Done resp), (rw s).
           split; [done|]. split; [done|]. split; [done|]. done.
      * cbn [accepted] in Hflow. subst flow.
        exists [EvPost url vp; EvOutcome (Failed err)]. cbn [fst snd].
        split; [done|]. right. exists [], vp, (Failed err), (rw s). done.
    + destruct Hstep as (Hflow & Htrace & Hn & Hrw). subst flow.
      exists []. cbn [fst snd]. rewrite app_nil_r. split; [done|].
      left. intros r Hr. by apply elem_of_nil in Hr.
Qed.
End FiringFailure.

(** The reply of a firing request whose last dispatch failed. *)
Lemma serve_firing_failure env req wm d t url vp r :
  routed req wm d "firing" →
  trace (serve env req) = (t ++ [EvPost url vp; EvOutcome r])%list →
  accepted r = false →
  ∃ w, noErrorStatus w ∧
    rw (serve env req) =
      match r with
      | Failed err =>
          write ("Failed post to VictorOps REST api: " +:+ err)
                (writeHeader 502 w)
      | Done resp =>
          write ("Unexpected status code "
                 +:+ FormatInt (StatusCode resp)
                 +:+ " from VictorOps: " +:+ Message (Decoded resp))
                (writeHeader 502
                   match DecodeErr resp with
                   | Some err =>
                       write ("Could not decode VictorOps response body: "
                              +:+ err) w
                   | None => w
                   end)
      end.
Proof.
  intros Hr Ht Hrej. unfold serve in *.
  rewrite (serve_firing env req wm d Hr) in *.
  destruct (forRange_failure env wm d
              (queryParam (Query req) victoropsApikeyParam)
              (queryParam (Query req) victoropsRoutingkeyParam)
              (Join (Values env (GroupLabels d)) ":")
              (sliceElems (Alerts d)) initState)
    as (t0 & Ht0 & [Hall|(t' & vp' & r' & w & -> & Hr' & Hw & Hrw)]).
  - by left.
  - cbn [trace initState app] in Ht0. rewrite Ht0 in Ht. subst t0.
    rewrite Hall in Hrej; [done|].
    apply elem_of_app. right. apply elem_of_cons. right. apply elem_of_cons. by left.
  - cbn [trace initState app] in Ht0. rewrite Ht0 in Ht.
    change (t' ++ [EvPost (victoropsURL (queryParam (Query req) victoropsApikeyParam)
                             (queryParam (Query req) victoropsRoutingkeyParam)) vp';
                   EvOutcome r'])%list
      with (t' ++ [EvPost (victoropsURL (queryParam (Query req) victoropsApikeyParam)
                             (queryParam (Query req) victoropsRoutingkeyParam)) vp']
               ++ [EvOutcome r'])%list in Ht.
    change (t ++ [EvPost url vp; EvOutcome r])%list
      with (t ++ [EvPost url vp] ++ [EvOutcome r])%list in Ht.
    rewrite !app_assoc in Ht. apply app_inj_tail in Ht as [_ Hlast].
    injection Hlast as ->. exists w. done.
Qed.

(** X8: in the firing branch, a rejected dispatch whose response does not
    decode is never reported as 502: the caller receives 200. *)
Lemma firing_rejection_undecoded env req wm d t url vp resp err :
  routed req wm d "firing" →
  trace (serve env req) = (t ++ [EvPost url vp; EvOutcome (Done resp)])%list →
  accepted (Done resp) = false →
  DecodeErr resp = Some err →
  responseStatus (serve env req) = 200.
Proof.
  intros Hr Ht Hrej Herr.
  destruct (serve_firing_failure env req wm d t url vp (Done resp) Hr Ht Hrej)
    as (w & Hw & Hrw).
  unfold responseStatus. rewrite Hrw, Herr.
  by rewrite status_after_write.
Qed.

(** ** After an accepted dispatch the loop goes on *)

Lemma loopRun_starts env wm d url displayName n alert rest t flow :
  (∀ vp, ∃ b, Marshal env vp = Done b) →
  loopRun env wm d url displayName n (alert :: rest) t flow →
  ∃ url' vp r t', t = EvPost url' vp :: EvOutcome r :: t'.
Proof.
  intros Hm Hrun. inversion Hrun as [|? ? ? vp err Hb Hf| |]; subst; eauto.
  destruct (Hm vp) as [b Hb']. congruence.
Qed.

(** When a dispatch was accepted and an alert is left, the next event is
    the dispatch of that alert. *)
Lemma loopRun_goes_on env wm d url displayName n alerts t flow :
  (∀ vp, ∃ b, Marshal env vp = Done b) →
  loopRun env wm d url displayName n alerts t flow →
  ∀ t1 url' vp r t2,
    t = (t1 ++ EvPost url' vp :: EvOutcome r :: t2)%list →
    accepted r = true →
    (length (dispatches t1) + 1 < length alerts)%nat →
    ∃ url'' vp' r' t3, t2 = EvPost url'' vp' :: EvOutcome r' :: t3.
Proof.
  intros Henc.
  induction 1 as [n|n alert rest vp err Hb Hm|n alert rest vp b Hb Hm Hacc
                 |n alert rest vp b t flow Hb Hm Hacc Hrun IH];
    intros t1 url' vp' r t2 Ht Hr Hlen.
  - by destruct t1.
  - by destruct t1.
  - destruct t1 as [|e1 [|e2 [|e3 t1]]]; simplify_eq/=. congruence.
  - destruct t1 as [|e1 [|e2 t1]]; simplify_eq/=.
    + destruct rest as [|alert' rest]; cbn in Hlen; [lia|].
      eapply loopRun_starts; eauto.
    + eapply IH; eauto. lia.
Qed.

(** ** C6: the reply to a rejected dispatch *)

(** C6 fails on the code in the firing branch.  A response that does not
    decode makes the handler write "Could not decode ..." to the caller
    without a status, which sends the header with status 200; the status 502
    that the handler sets when it then finds a status outside 2xx, in this
    turn or in a later one, comes too late.  In the first run the downstream
    rejects the dispatch with a body that is not JSON; in the second it
    answers the first dispatch with 200 and a body that is not JSON and
    rejects the second dispatch with the response of the specification's
    example.  In both the caller receives 200. *)
Theorem firing_rejection_after_decode_failure :
  let req := sampleRequest "firing" (Some [warningAlert; plainAlert]) in
  let run1 := serve (inOrder (λ _, Done (garbledResponse 500))) req in
  let run2 := serve (inOrder (λ n, match n with
                                   | O => Done (garbledResponse 200)
                                   | _ => Done failureResponse
                                   end)) req in
  (last (trace run1) = Some (EvOutcome (Done (garbledResponse 500))) ∧
   accepted (Done (garbledResponse 500)) = false ∧
   responseStatus run1 = 200 ∧
   responseBody run1 =
     "Could not decode VictorOps response body: invalid character '<' looking for beginning of value"
     +:+ "Unexpected status code 500 from VictorOps: ") ∧
  (last (trace run2) = Some (EvOutcome (Done failureResponse)) ∧
   accepted (Done failureResponse) = false ∧
   responseStatus run2 = 200 ∧
   responseBody run2 =
     "Could not decode VictorOps response body: invalid character '<' looking for beginning of value"
     +:+ "Unexpected status code 500 from VictorOps: bad routing key").
Proof. vm_compute. repeat split. Qed.

(** ** C7: a downstream response that does not decode *)

(** C7: when the downstream response does not decode, a resolved request is
    aborted there: nothing follows the dispatch, the caller receives 502 and
    the decode error as the body, and the status of the response is not
    looked at.  A firing request is not aborted: the status of the response
    is checked after the decode failure (when the dispatch is rejected, the
    body ends with the decode error followed by the text of the status
    check), and when the status is 2xx and an alert is left, that alert is
    dispatched next. *)
Theorem decode_failure_paths env req wm d :
  (∀ vp, ∃ b, Marshal env vp = Done b) →
  (routed req wm d "resolved" →
     ∀ url vp resp err t,
       trace (serve env req) = EvPost url vp :: EvOutcome (Done resp) :: t →
       DecodeErr resp = Some err →
       t = [] ∧
       responseStatus (serve env req) = 502 ∧
       responseBody (serve env req) =
         "Could not decode VictorOps response body: " +:+ err)
  ∧ (routed req wm d "firing" →
       (∀ t1 url vp resp err,
          trace (serve env req) = (t1 ++ [EvPost url vp; EvOutcome (Done resp)])%list →
          DecodeErr resp = Some err →
          accepted (Done resp) = false →
          ∃ before,
            responseBody (serve env req) =
              (before +:+ ("Could not decode VictorOps response body: " +:+ err))
              +:+ ("Unexpected status code " +:+ FormatInt (StatusCode resp)
                   +:+ " from VictorOps: " +:+ Message (Decoded resp)))
       ∧ (∀ t1 url vp resp err t2,
            trace (serve env req) =
              (t1 ++ EvPost url vp :: EvOutcome (Done resp) :: t2)%list →
            DecodeErr resp = Some err →
            accepted (Done resp) = true →
            (length (dispatches t1) + 1 < length (sliceElems (Alerts d)))%nat →
            ∃ url' vp' r t3, t2 = EvPost url' vp' :: EvOutcome r :: t3)).
Proof.
  intros Hm. split.
  - intros Hr url vp resp err t Ht Herr. unfold serve in *.
    rewrite (serve_resolved env req wm d Hr) in *.
    destruct (resolved_step env wm
                (queryParam (Query req) victoropsApikeyParam)
                (queryParam (Query req) victoropsRoutingkeyParam)
                (Join (Values env (GroupLabels d)) ":") initState)
      as (vp0 & _ & _ & _ & _ & Hstep).
    destruct (Marshal env vp0) as [b|e].
    + cbn zeta in Hstep. cbn [nPost trace rw initState app] in Hstep.
      destruct Hstep as [Htrace Hrw]. rewrite Htrace in Ht.
      injection Ht as _ _ Hpost <-. rewrite Hpost, Herr in Hrw.
      split; [done|]. unfold responseStatus, responseBody. rewrite Hrw. cbn. done.
    + rewrite Hstep in Ht. done.
  - intros Hr. split.
    + intros t1 url vp resp err Ht Herr Hrej.
      destruct (serve_firing_failure env req wm d t1 url vp (Done resp) Hr Ht Hrej)
        as (w & Hw & Hrw).
      exists (written w). unfold responseBody. rewrite Hrw, Herr.
      unfold write, writeHeader. destruct w as [[c|] wr]; cbn; done.
    + intros t1 url vp resp err t2 Ht _ Hacc Hlen.
      destruct (serve_firing_run env req wm d Hr) as [flow Hrun].
      eapply loopRun_goes_on; eauto.
Qed.

Lemma decode_failure_paths_witness :
  let env := inOrder (λ n, match n with
                           | O => Done (garbledResponse 200)
                           | _ => Done (garbledResponse 500)
                           end) in
  let alerts := [warningAlert; plainAlert] in
  let resolvedRun := serve env (sampleRequest "resolved" (Some alerts)) in
  let firingRun := serve env (sampleRequest "firing" (Some alerts)) in
  (length (trace resolvedRun) = 2%nat ∧ responseStatus resolvedRun = 502) ∧
  length (dispatches (trace firingRun)) = 2%nat ∧
  ∃ before, responseBody firingRun =
    (before +:+ ("Could not decode VictorOps response body: "
                 +:+ "invalid character '<' looking for beginning of value"))
    +:+ ("Unexpected status code " +:+ FormatInt 500
         +:+ " from VictorOps: " +:+ "").
Proof.
  pose (env := inOrder (λ n, match n with
                             | O => Done (garbledResponse 200)
                             | _ => Done (garbledResponse 500)
                             end)).
  assert (∀ vp, ∃ b, Marshal env vp = Done b)
    as Hm by (intros vp; eexists; reflexivity).
  assert (∃ url vp,
            trace (serve env (sampleRequest "resolved" (Some [warningAlert; plainAlert])))
            = [EvPost url vp; EvOutcome (Done (garbledResponse 200))])
    as (urlR & vpR & HtR) by (vm_compute; eexists _, _; reflexivity).
  assert (∃ t1 url vp,
            trace (serve env (sampleRequest "firing" (Some [warningAlert; plainAlert])))
            = (t1 ++ [EvPost url vp; EvOutcome (Done (garbledResponse 500))])%list)
    as (t1 & urlF & vpF & HtF)
    by (vm_compute; eexists [_; _], _, _; reflexivity).
  split; [|split].
  - destruct (decode_failure_paths env
                (sampleRequest "resolved" (Some [warningAlert; plainAlert]))
                (sampleMessage "resolved" (Some [warningAlert; plainAlert]))
                (sampleData "resolved" (Some [warningAlert; plainAlert]))
                Hm) as [Hres _].
    destruct (Hres (sampleRequest_routed "resolved" (Some [warningAlert; plainAlert]))
                urlR vpR (garbledResponse 200) _ [] HtR eq_refl)
      as (_ & Hs & _).
    split; [vm_compute; reflexivity | exact Hs].
  - vm_compute. reflexivity.
  - destruct (decode_failure_paths env
                (sampleRequest "firing" (Some [warningAlert; plainAlert]))
                (sampleMessage "firing" (Some [warningAlert; plainAlert]))
                (sampleData "firing" (Some [warningAlert; plainAlert]))
                Hm) as [_ Hfir].
    destruct (Hfir (sampleRequest_routed "firing" (Some [warningAlert; plainAlert])))
      as [Hcheck _].
    exact (Hcheck t1 urlF vpF (garbledResponse 500) _ HtF eq_refl eq_refl).
Defined.

(** * Further properties of the handler *)

(** ** The guards *)

(** A request that does not pass the guards is answered with 400, and no
    outbound call is made for it. *)
Lemma serve_unrouted env req :
  ¬ passesGuards req →
  responseStatus (serve env req) = 400 ∧ trace (serve env req) = [].
Proof.
  intros Hno. unfold serve, victorops.
  destruct (Body req) as [wm|err] eqn:Hb; [|by cbn].
  destruct (Data wm) as [d|] eqn:Hd; [|by cbn].
  destruct (String.eqb (queryParam (Query req) victoropsApikeyParam) "") eqn:Ha;
    [by cbn|].
  destruct (String.eqb (queryParam (Query req) victoropsRoutingkeyParam) "") eqn:Hk;
    [by cbn|].
  apply String.eqb_neq in Ha, Hk. cbn [orb].
  destruct (String.eqb (Status d) "firing") eqn:Hf.
  { apply String.eqb_eq in Hf. destruct Hno. exists wm, d. left. by repeat split. }
  destruct (String.eqb (Status d) "resolved") eqn:Hres.
  { apply String.eqb_eq in Hres. destruct Hno. exists wm, d. right. by repeat split. }
  by cbn.
Qed.

(** X1: the caller receives 400 exactly when the request does not pass the
    guards of the handler (the body does not decode or carries no data, a
    credential is missing, or the status is neither "firing" nor
    "resolved"); no outbound call is made then.  A request that passes the
    guards is never answered with 400. *)
Theorem status_400_iff_rejected env req :
  (responseStatus (serve env req) = 400 ↔ ¬ passesGuards req) ∧
  (¬ passesGuards req → trace (serve env req) = []).
Proof.
  split; [split|].
  - intros H400 Hpass. apply (serve_branchStatus env) in Hpass.
    unfold responseStatus in H400.
    destruct Hpass as [H|[H|[H|H]]]; rewrite H in H400; discriminate H400.
  - intros Hno. by apply serve_unrouted.
  - intros Hno. by apply serve_unrouted.
Qed.

(** Whether a request passes the guards can be told from the request. *)
Lemma passesGuards_dec req : passesGuards req ∨ ¬ passesGuards req.
Proof.
  unfold passesGuards, routed.
  destruct (Body req) as [wm|err] eqn:Hb;
    [|right; intros (wm & d & [H|H]); destruct H as (? & _); congruence].
  destruct (Data wm) as [d|] eqn:Hd;
    [|right; intros (wm' & d & [H|H]); destruct H as (? & ? & _); congruence].
  destruct (decide (queryParam (Query req) victoropsApikeyParam = "")) as [Ha|Ha];
    [right; intros (wm' & d' & [H|H]); destruct H as (_ & _ & _ & ? & _); done|].
  destruct (decide (queryParam (Query req) victoropsRoutingkeyParam = "")) as [Hk|Hk];
    [right; intros (wm' & d' & [H|H]); destruct H as (_ & _ & _ & _ & ?); done|].
  destruct (decide (Status d = "firing")) as [Hf|Hf];
    [left; exists wm, d; left; done|].
  destruct (decide (Status d = "resolved")) as [Hr|Hr];
    [left; exists wm, d; right; done|].
  right. intros (wm' & d' & [H|H]); destruct H as (Hb' & Hd' & Hs' & _);
    congruence.
Qed.

(** X2: the caller receives one of the statuses 200, 400, 500 and 502,
    whatever the request and whatever the downstream does. *)
Theorem response_status_range env req :
  responseStatus (serve env req) = 200 ∨ responseStatus (serve env req) = 400 ∨
  responseStatus (serve env req) = 500 ∨ responseStatus (serve env req) = 502.
Proof.
  destruct (passesGuards_dec req) as [Hpass|Hno].
  - apply (serve_branchStatus env) in Hpass. unfold responseStatus.
    destruct Hpass as [H|[H|[H|H]]]; rewrite H; cbn; auto.
  - right. left. by apply serve_unrouted.
Qed.

Lemma status_400_iff_rejected_witness :
  let env := inOrder (λ _, Done successResponse) in
  let req := {| Body := Failed "unexpected EOF"; Query := sampleQuery |} in
  responseStatus (serve env req) = 400 ∧ trace (serve env req) = [].
Proof.
  assert (¬ passesGuards {| Body := Failed "unexpected EOF"; Query := sampleQuery |})
    as Hno.
  { intros (wm & d & [H|H]); destruct H as (Hb & _); discriminate Hb. }
  destruct (status_400_iff_rejected (inOrder (λ _, Done successResponse))
              {| Body := Failed "unexpected EOF"; Query := sampleQuery |})
    as [[_ H400] Hnone].
  split; [exact (H400 Hno) | exact (Hnone Hno)].
Defined.

(** ** The credentials *)

(** A credential is missing when the query has no such parameter, has it
    without a value, or has the empty string as its first value. *)
Lemma queryParam_empty q param :
  queryParam q param = "" ↔
  q !! param = None ∨ q !! param = Some [] ∨ ∃ rest, q !! param = Some ("" :: rest).
Proof.
  unfold queryParam. destruct (q !! param) as [[|v rest]|]; split; auto.
  - intros ->. right. right. by exists rest.
  - intros [H|[H|[rest' H]]]; congruence.
Qed.

(** X3: a request whose body decoded and carries data, but in whose query
    [api_key] or [routing_key] is missing, is answered with 400 and the text
    that names the two parameters, and no outbound call is made, whatever
    the status of the message.  A parameter is missing when it is absent,
    has no value, or has the empty string as its first value; of a parameter
    given several times only the first value counts. *)
Theorem missing_credentials_rejected env req wm d param :
  Body req = Done wm →
  Data wm = Some d →
  param = "api_key" ∨ param = "routing_key" →
  (Query req !! param = None ∨ Query req !! param = Some [] ∨
   ∃ rest, Query req !! param = Some ("" :: rest)) →
  responseStatus (serve env req) = 400 ∧
  responseBody (serve env req) = "requires query parameters 'api_key' and 'routing_key'" ∧
  trace (serve env req) = [].
Proof.
  intros Hb Hd Hparam Hmissing. apply queryParam_empty in Hmissing.
  unfold serve, victorops. rewrite Hb, Hd.
  assert (String.eqb (queryParam (Query req) victoropsApikeyParam) ""
          || String.eqb (queryParam (Query req) victoropsRoutingkeyParam) "" = true)
    as ->.
  { destruct Hparam as [-> | ->].
    - unfold victoropsApikeyParam. by rewrite Hmissing.
    - unfold victoropsRoutingkeyParam. rewrite Hmissing. apply orb_true_r. }
  by cbn.
Qed.

Lemma missing_credentials_rejected_witness :
  let env := inOrder (λ _, Done successResponse) in
  let req := {| Body := Done (sampleMessage "firing" (Some [warningAlert]));
                Query := {[ "api_key" := ["key"]; "routing_key" := [""; "team"] ]} |} in
  responseStatus (serve env req) = 400 ∧
  responseBody (serve env req) = "requires query parameters 'api_key' and 'routing_key'" ∧
  trace (serve env req) = [].
Proof.
  apply (missing_credentials_rejected (inOrder (λ _, Done successResponse))
           {| Body := Done (sampleMessage "firing" (Some [warningAlert]));
              Query := {[ "api_key" := ["key"]; "routing_key" := [""; "team"] ]} |}
           (sampleMessage "firing" (Some [warningAlert]))
           (sampleData "firing" (Some [warningAlert]))
           "routing_key");
    [reflexivity | reflexivity | right; reflexivity |].
  right. right. exists ["team"]. vm_compute. reflexivity.
Defined.

(** ** The status of the message *)

(** A status other than "firing" and "resolved" is answered with 400. *)
Lemma serve_unknown_status env req wm d :
  Body req = Done wm →
  Data wm = Some d →
  queryParam (Query req) victoropsApikeyParam ≠ "" →
  queryParam (Query req) victoropsRoutingkeyParam ≠ "" →
  Status d ≠ "firing" →
  Status d ≠ "resolved" →
  rw (serve env req) =
    write ("Unknown Alertmanager status: " +:+ Status d)
          (writeHeader 400 (rw initState)) ∧
  trace (serve env req) = [].
Proof.
  intros Hb Hd Ha Hk Hf Hr. unfold serve, victorops.
  rewrite Hb, Hd, credentials_present by done.
  apply String.eqb_neq in Hf, Hr. rewrite Hf, Hr. by cbn.
Qed.

(** X4: a request with both credentials whose message has a status other
    than "firing" and "resolved" (the comparison is exact: "Firing" is such
    a status, and so is the empty one) is answered with 400 and a text that
    ends with the status, and no outbound call is made. *)
Theorem unknown_status_rejected env req wm d :
  Body req = Done wm →
  Data wm = Some d →
  queryParam (Query req) victoropsApikeyParam ≠ "" →
  queryParam (Query req) victoropsRoutingkeyParam ≠ "" →
  Status d ≠ "firing" →
  Status d ≠ "resolved" →
  responseStatus (serve env req) = 400 ∧
  responseBody (serve env req) = "Unknown Alertmanager status: " +:+ Status d ∧
  trace (serve env req) = [].
Proof.
  intros Hb Hd Ha Hk Hf Hr.
  destruct (serve_unknown_status env req wm d Hb Hd Ha Hk Hf Hr) as [Hrw Ht].
  unfold responseStatus, responseBody. rewrite Hrw. by cbn.
Qed.

Lemma unknown_status_rejected_witness :
  let env := inOrder (λ _, Done successResponse) in
  let req := sampleRequest "Firing" (Some [warningAlert]) in
  responseStatus (serve env req) = 400 ∧
  responseBody (serve env req) = "Unknown Alertmanager status: Firing" ∧
  trace (serve env req) = [].
Proof.
  apply (unknown_status_rejected (inOrder (λ _, Done successResponse))
           (sampleRequest "Firing" (Some [warningAlert]))
           (sampleMessage "Firing" (Some [warningAlert]))
           (sampleData "Firing" (Some [warningAlert])));
    try reflexivity; intros H; vm_compute in H; discriminate H.
Defined.

(** ** The replies of the two branches *)





(** In an environment that accepts every dispatch and whose responses
    decode, the loop runs to its end and writes nothing. *)
Lemma forRange_success env wm d apiKey routingKey displayName alerts :
  allAccepted env →
  (∀ n u b resp, Post env n u b = Done resp → DecodeErr resp = None) →
  ∀ s,
    rw (forRange alerts (firingAlert env wm d apiKey routingKey displayName) s).2
    = rw s.
Proof.
  intros [Hm Hp] Hdec. induction alerts as [|alert rest IH]; intros s; [done|].
  rewrite forRange_cons.
  destruct (firingAlert_step env wm d apiKey routingKey displayName alert s)
    as (vp & _ & Hstep).
  destruct (Hm vp) as [b Hb]. rewrite Hb in Hstep. cbn zeta in Hstep.
  destruct Hstep as (Hflow & _ & _ & Hrw).
  pose proof (Hp (nPost s) (victoropsURL apiKey routingKey) b) as Hacc.
  rewrite Hacc in Hflow.
  destruct (Post env (nPost s) (victoropsURL apiKey routingKey) b)
    as [resp|err] eqn:Hpost; [|discriminate Hacc].
  rewrite (Hdec _ _ _ _ Hpost) in Hrw. cbn [accepted] in Hacc.
  rewrite Hacc in Hrw. cbn zeta in Hrw.
  destruct (firingAlert env wm d apiKey routingKey displayName alert s)
    as [flow s1]. cbn [fst snd] in *. subst flow.
  by rewrite IH, Hrw.
Qed.

(** X7: when the downstream accepts every dispatch of a firing request and
    every response decodes, every alert is dispatched and the caller
    receives 200 and an empty body. *)
Theorem firing_success env req wm d :
  routed req wm d "firing" →
  allAccepted env →
  (∀ n u b resp, Post env n u b = Done resp → DecodeErr resp = None) →
  length (dispatches (trace (serve env req))) = length (sliceElems (Alerts d)) ∧
  responseStatus (serve env req) = 200 ∧
  responseBody (serve env req) = "".
Proof.
  intros Hr Hacc Hdec. split.
  - destruct (serve_firing_run env req wm d Hr) as [flow Hrun].
    eapply loopRun_Next; [exact Hrun|]. eapply loopRun_allAccepted; eauto.
  - unfold responseStatus, responseBody, serve.
    rewrite (serve_firing env req wm d Hr), forRange_success by done.
    by cbn.
Qed.

Lemma firing_success_witness :
  let env := inOrder (λ _, Done successResponse) in
  let req := sampleRequest "firing" (Some [warningAlert; plainAlert; bareAlert]) in
  length (dispatches (trace (serve env req))) = 3%nat ∧
  responseStatus (serve env req) = 200 ∧
  responseBody (serve env req) = "".
Proof.
  apply (firing_success (inOrder (λ _, Done successResponse))
           (sampleRequest "firing" (Some [warningAlert; plainAlert; bareAlert]))
           (sampleMessage "firing" (Some [warningAlert; plainAlert; bareAlert]))
           (sampleData "firing" (Some [warningAlert; plainAlert; bareAlert]))
           (sampleRequest_routed "firing" (Some [warningAlert; plainAlert; bareAlert]))
           inOrder_success_allAccepted).
  intros n u b resp Hpost. injection Hpost as <-. reflexivity.
Defined.

(** X8's witness: a rejected dispatch whose response does not decode. *)
Lemma firing_rejection_undecoded_witness :
  let env := inOrder (λ _, Done (garbledResponse 503)) in
  let req := sampleRequest "firing" (Some [warningAlert]) in
  responseStatus (serve env req) = 200.
Proof.
  assert (∃ url vp,
            trace (serve (inOrder (λ _, Done (garbledResponse 503)))
                     (sampleRequest "firing" (Some [warningAlert])))
            = ([] ++ [EvPost url vp; EvOutcome (Done (garbledResponse 503))])%list)
    as (url & vp & Ht) by (vm_compute; eexists _, _; reflexivity).
  exact (firing_rejection_undecoded (inOrder (λ _, Done (garbledResponse 503)))
           (sampleRequest "firing" (Some [warningAlert]))
           (sampleMessage "firing" (Some [warningAlert]))
           (sampleData "firing" (Some [warningAlert]))
           [] url vp (garbledResponse 503) _
           (sampleRequest_routed "firing" (Some [warningAlert]))
           Ht eq_refl eq_refl).
Defined.

(** ** The messages that are dispatched *)

(** The keys of the encoding of a message. *)
Lemma elem_of_jsonKeys key vp :
  key ∈ jsonKeys vp ↔
    key = "message_type"
    ∨ (key = "entity_id" ∧ EntityID vp ≠ "")
    ∨ (key = "timestamp" ∧ Timestamp vp ≠ 0)
    ∨ (key = "state_start_time" ∧ StateStartTime vp ≠ 0)
    ∨ (key = "state_message" ∧ StateMessage vp ≠ "")
    ∨ (key = "monitoring_tool" ∧ MonitoringTool vp ≠ "")
    ∨ (key = "entity_display_name" ∧ EntityDisplayName vp ≠ "")
    ∨ (key = "ack_msg" ∧ AckMessage vp ≠ "")
    ∨ (key = "ack_author" ∧ AckAuthor vp ≠ "").
Proof.
  assert (∀ k value, key ∈ keyUnlessEmpty k value ↔ key = k ∧ value ≠ "") as Hempty.
  { intros k value. unfold keyUnlessEmpty.
    destruct (String.eqb_spec value "") as [->|Hne].
    - rewrite elem_of_nil. intuition congruence.
    - rewrite list_elem_of_singleton. intuition congruence. }
  assert (∀ k value, key ∈ keyUnlessZero k value ↔ key = k ∧ value ≠ 0) as Hzero.
  { intros k value. unfold keyUnlessZero.
    destruct (Z.eqb_spec value 0) as [->|Hne].
    - rewrite elem_of_nil. intuition congruence.
    - rewrite list_elem_of_singleton. intuition congruence. }
  unfold jsonKeys.
  rewrite !elem_of_app, list_elem_of_singleton, !Hempty, !Hzero. tauto.
Qed.

Lemma append_eq_nil (a b : string) : a +:+ b = "" → a = "" ∧ b = "".
Proof. destruct a; [done|]. rewrite append_cons. discriminate. Qed.

Lemma FormatUint_nonempty (u : N) : FormatUint u ≠ "".
Proof.
  intros H. pose proof (ParseUint_FormatUint u) as Hp. rewrite H in Hp.
  discriminate Hp.
Qed.

(** The fields of a message of the firing branch that do not depend on the
    alert. *)
Lemma builtFor_fixed env wm d displayName alert vp :
  builtFor env wm d displayName alert vp →
  MonitoringTool vp = "Prometheus Alertmanager" ∧
  EntityDisplayName vp = displayName ∧
  AckMessage vp = "" ∧ AckAuthor vp = "".
Proof.
  intros [s Hs]. unfold firingPost in Hs. run_handler in Hs.
  injection Hs as <-. done.
Qed.

(** What a resolved request dispatches. *)
Lemma serve_resolved_dispatches env req wm d url vp :
  routed req wm d "resolved" →
  (url, vp) ∈ dispatches (trace (serve env req)) →
  url = requestURL req ∧
  vp = {| MessageType := "RECOVERY";
          EntityID := FormatUint (GroupKey wm);
          Timestamp := Now env 0;
          StateStartTime := 0;
          StateMessage := "Entity recovered";
          MonitoringTool := "Prometheus Alertmanager";
          EntityDisplayName := Join (Values env (GroupLabels d)) ":";
          AckMessage := "";
          AckAuthor := "" |}.
Proof.
  intros Hr Hin. unfold serve in Hin. rewrite (serve_resolved env req wm d Hr) in Hin.
  pose proof (resolved_run env wm
                (queryParam (Query req) victoropsApikeyParam)
                (queryParam (Query req) victoropsRoutingkeyParam)
                (Join (Values env (GroupLabels d)) ":") initState) as Hrun.
  cbn zeta in Hrun. cbn [nPost nNow trace rw initState app] in Hrun.
  destruct (Marshal env _) as [b|err].
  - destruct Hrun as [Htrace _]. rewrite Htrace in Hin. cbn in Hin.
    apply list_elem_of_singleton in Hin. by injection Hin as -> ->.
  - destruct Hrun as [Htrace _]. rewrite Htrace in Hin. cbn in Hin.
    by apply elem_of_nil in Hin.
Qed.

(** X9: every message that the handler dispatches, in either branch, goes
    to the URL of the request's credentials and carries the decimal group
    key as entity identifier, the monitoring tool "Prometheus Alertmanager",
    the group label values joined with ":" as display name, and no
    acknowledgement: the keys [ack_msg] and [ack_author] are never sent, and
    [message_type], [entity_id], [state_message] and [monitoring_tool]
    always are. *)
Theorem dispatch_fixed_fields env req wm d status url vp :
  routed req wm d status →
  (url, vp) ∈ dispatches (trace (serve env req)) →
  url = requestURL req ∧
  EntityID vp = FormatUint (GroupKey wm) ∧
  MonitoringTool vp = "Prometheus Alertmanager" ∧
  EntityDisplayName vp = Join (Values env (GroupLabels d)) ":" ∧
  ("ack_msg" ∉ jsonKeys vp) ∧ ("ack_author" ∉ jsonKeys vp) ∧
  ("message_type" ∈ jsonKeys vp) ∧ ("entity_id" ∈ jsonKeys vp) ∧
  ("state_message" ∈ jsonKeys vp) ∧ ("monitoring_tool" ∈ jsonKeys vp).
Proof.
  intros Hr Hin.
  assert (url = requestURL req ∧
          EntityID vp = FormatUint (GroupKey wm) ∧
          MonitoringTool vp = "Prometheus Alertmanager" ∧
          EntityDisplayName vp = Join (Values env (GroupLabels d)) ":" ∧
          AckMessage vp = "" ∧ AckAuthor vp = "" ∧ StateMessage vp ≠ "")
    as (Hurl & He & Ht & Hd & Ham & Haa & Hsm).
  { destruct (decide (status = "firing")) as [->|Hnf].
    - destruct (serve_firing_run env req wm d Hr) as [flow Hrun].
      apply list_elem_of_lookup in Hin as [i Hi].
      destruct (loopRun_dispatches _ _ _ _ _ _ _ _ _ Hrun i url vp Hi)
        as (-> & alert & _ & Hb).
      destruct (builtFor_fixed _ _ _ _ _ _ Hb) as (? & ? & ? & ?).
      destruct (builtFor_message _ _ _ _ _ _ Hb) as (la & ll & _ & _ & Hm).
      pose proof (builtFor_entity _ _ _ _ _ _ Hb).
      repeat split; try done. rewrite Hm. intros Hnil.
      apply append_eq_nil in Hnil as [_ Hnil].
      apply append_eq_nil in Hnil as [_ Hnil]. discriminate Hnil.
    - destruct (decide (status = "resolved")) as [->|Hnr].
      + destruct (serve_resolved_dispatches env req wm d url vp Hr Hin) as [-> ->].
        repeat split; done.
      + destruct Hr as (Hb & Hdata & Hs & Ha & Hk). subst status.
        destruct (serve_unknown_status env req wm d Hb Hdata Ha Hk Hnf Hnr)
          as (_ & Hnil).
        rewrite Hnil in Hin. by apply elem_of_nil in Hin. }
  split; [done|]. split; [done|]. split; [done|]. split; [done|].
  rewrite !elem_of_jsonKeys, He, Ht, Ham, Haa.
  pose proof (FormatUint_nonempty (GroupKey wm)).
  repeat split; intuition congruence.
Qed.

Lemma dispatch_fixed_fields_witness :
  let env := inOrder (λ _, Done successResponse) in
  let req := sampleRequest "resolved" (Some [warningAlert]) in
  ∃ url vp,
    dispatches (trace (serve env req)) = [(url, vp)] ∧
    url = "https://alert.victorops.com/integrations/generic/20131114/alert/key/team" ∧
    EntityID vp = "1234567890123" ∧
    EntityDisplayName vp = "DiskFull:node" ∧
    ("ack_msg" ∉ jsonKeys vp).
Proof.
  assert (∃ url vp,
            dispatches (trace (serve (inOrder (λ _, Done successResponse))
                                 (sampleRequest "resolved" (Some [warningAlert]))))
            = [(url, vp)]) as (url & vp & Hd)
    by (vm_compute; eexists _, _; reflexivity).
  exists url, vp. split; [exact Hd|].
  destruct (dispatch_fixed_fields (inOrder (λ _, Done successResponse))
              (sampleRequest "resolved" (Some [warningAlert]))
              (sampleMessage "resolved" (Some [warningAlert]))
              (sampleData "resolved" (Some [warningAlert]))
              "resolved" url vp
              (sampleRequest_routed "resolved" (Some [warningAlert])))
    as (Hu & He & _ & Hn & Hack & _).
  { rewrite Hd. apply list_elem_of_singleton. reflexivity. }
  split; [rewrite Hu; vm_compute; reflexivity|].
  split; [rewrite He; vm_compute; reflexivity|].
  split; [rewrite Hn; vm_compute; reflexivity | exact Hack].
Defined.

(** ** The times of a message *)

(** A turn of the firing loop reads the clock once, for the timestamp of its
    message, and posts that message at most once. *)
Lemma firingAlert_clock env wm d apiKey routingKey displayName alert s :
  let s' := (firingAlert env wm d apiKey routingKey displayName alert s).2 in
  nNow s' = S (nNow s) ∧
  (((firingAlert env wm d apiKey routingKey displayName alert s).1 = Return ∧
    trace s' = trace s)
   ∨ ∃ vp r,
       Timestamp vp = Now env (nNow s) ∧
       trace s' = (trace s ++ [EvPost (victoropsURL apiKey routingKey) vp;
                               EvOutcome r])%list).
Proof.
  unfold firingAlert, firingPost. run_handler. cbn zeta.
  match goal with |- context [Marshal env ?v] =>
    set (vp := v); destruct (Marshal env vp) as [b|err] end.
  2: { cbn. split; [reflexivity|]. left. split; reflexivity. }
  cbn [nPost rw trace nNow nRange fst snd].
  destruct (Post env (nPost s) (victoropsURL apiKey routingKey) b)
    as [resp|err] eqn:Hpost; cbn.
  2: { split; [reflexivity|]. right. exists vp, (Failed err). split; reflexivity. }
  destruct (DecodeErr resp); cbn;
    destruct (StatusCode resp ÷ 100 =? 2); cbn;
    (split; [reflexivity|]; right; exists vp, (Done resp); split; reflexivity).
Qed.

Lemma forRange_clock env wm d apiKey routingKey displayName alerts : ∀ s,
  ∃ t,
    trace (forRange alerts (firingAlert env wm d apiKey routingKey displayName) s).2
    = (trace s ++ t)%list ∧
    ∀ i url vp, dispatches t !! i = Some (url, vp) →
      Timestamp vp = Now env (nNow s + i).
Proof.
  induction alerts as [|alert rest IH]; intros s.
  - exists []. cbn. rewrite app_nil_r. split; [done|]. intros i url vp Hi. done.
  - rewrite forRange_cons.
    pose proof (firingAlert_clock env wm d apiKey routingKey displayName alert s)
      as Hstep. cbn zeta in Hstep.
    destruct (firingAlert env wm d apiKey routingKey displayName alert s)
      as [flow s1]. cbn [fst snd] in Hstep.
    destruct Hstep as [Hn [[-> Htrace]|(vp & r & Hvp & Htrace)]].
    + exists []. cbn [snd]. rewrite app_nil_r. split; [done|].
      intros i url vp Hi. done.
    + destruct flow as [[]|].
      * destruct (IH s1) as (t & Ht & Htimes).
        exists (EvPost (victoropsURL apiKey routingKey) vp :: EvOutcome r :: t).
        split; [rewrite Ht, Htrace, <- app_assoc; done|].
        intros [|i] url vp' Hi; cbn in Hi.
        -- injection Hi as _ <-. by rewrite Nat.add_0_r.
        -- apply Htimes in Hi. rewrite Hi, Hn. f_equal. lia.
      * exists [EvPost (victoropsURL apiKey routingKey) vp; EvOutcome r].
        cbn [snd]. split; [done|].
        intros [|i] url vp' Hi; cbn in Hi; [|done].
        injection Hi as _ <-. by rewrite Nat.add_0_r.
Qed.

(** X10: the timestamp of a message is the reading of the clock at the
    moment the message is built, not the time of the request: the clock is
    read once per message, so the i-th message that a request dispatches
    carries the i-th reading. *)
Theorem dispatch_timestamps env req wm d status i url vp :
  routed req wm d status →
  dispatches (trace (serve env req)) !! i = Some (url, vp) →
  Timestamp vp = Now env i.
Proof.
  intros Hr Hi.
  destruct (decide (status = "firing")) as [->|Hnf].
  - unfold serve in Hi. rewrite (serve_firing env req wm d Hr) in Hi.
    destruct (forRange_clock env wm d
                (queryParam (Query req) victoropsApikeyParam)
                (queryParam (Query req) victoropsRoutingkeyParam)
                (Join (Values env (GroupLabels d)) ":")
                (sliceElems (Alerts d)) initState) as (t & Ht & Htimes).
    cbn [trace initState app] in Ht. rewrite Ht in Hi.
    apply Htimes in Hi. exact Hi.
  - destruct (decide (status = "resolved")) as [->|Hnr].
    + assert ((url, vp) ∈ dispatches (trace (serve env req))) as Hin
        by (apply list_elem_of_lookup; eauto).
      destruct (serve_resolved_dispatches env req wm d url vp Hr Hin) as [_ Hvp].
      assert (i = 0%nat) as ->.
      { apply lookup_lt_Some in Hi.
        unfold serve in Hi. rewrite (serve_resolved env req wm d Hr) in Hi.
        pose proof (resolved_run env wm
                      (queryParam (Query req) victoropsApikeyParam)
                      (queryParam (Query req) victoropsRoutingkeyParam)
                      (Join (Values env (GroupLabels d)) ":") initState) as Hrun.
        cbn zeta in Hrun. destruct (Marshal env _); destruct Hrun as [Htrace _];
          rewrite Htrace in Hi; cbn in Hi; lia. }
      by rewrite Hvp.
    + destruct Hr as (Hb & Hdata & Hs & Ha & Hk). subst status.
      destruct (serve_unknown_status env req wm d Hb Hdata Ha Hk Hnf Hnr)
        as (_ & Hnil).
      rewrite Hnil in Hi. done.
Qed.

Lemma dispatch_timestamps_witness :
  let env := inOrder (λ _, Done successResponse) in
  let req := sampleRequest "firing" (Some [warningAlert; plainAlert]) in
  ∃ url vp,
    dispatches (trace (serve env req)) !! 1%nat = Some (url, vp) ∧
    Timestamp vp = 1500000001.
Proof.
  assert (∃ url vp,
            dispatches (trace (serve (inOrder (λ _, Done successResponse))
                                 (sampleRequest "firing"
                                    (Some [warningAlert; plainAlert])))) !! 1%nat
            = Some (url, vp)) as (url & vp & Hd)
    by (vm_compute; eexists _, _; reflexivity).
  exists url, vp. split; [exact Hd|].
  exact (dispatch_timestamps (inOrder (λ _, Done successResponse))
           (sampleRequest "firing" (Some [warningAlert; plainAlert]))
           (sampleMessage "firing" (Some [warningAlert; plainAlert]))
           (sampleData "firing" (Some [warningAlert; plainAlert]))
           "firing" 1 url vp
           (sampleRequest_routed "firing" (Some [warningAlert; plainAlert])) Hd).
Defined.

(** X11: in the firing branch the state-start time of the i-th message is
    the start time of the i-th alert, in seconds; the key [state_start_time]
    is sent exactly when that time is not zero, so an alert that started at
    the epoch goes out without it. *)
Theorem firing_start_time env req wm d i url vp :
  routed req wm d "firing" →
  dispatches (trace (serve env req)) !! i = Some (url, vp) →
  ∃ alert, sliceElems (Alerts d) !! i = Some alert ∧
    StateStartTime vp = Unix (StartsAt alert) ∧
    ("state_start_time" ∈ jsonKeys vp ↔ Unix (StartsAt alert) ≠ 0).
Proof.
  intros Hr Hi.
  destruct (serve_firing_run env req wm d Hr) as [flow Hrun].
  destruct (loopRun_dispatches _ _ _ _ _ _ _ _ _ Hrun i url vp Hi)
    as (_ & alert & Ha & Hb).
  exists alert. split; [done|].
  pose proof (builtFor_start _ _ _ _ _ _ Hb) as Hs. split; [done|].
  rewrite elem_of_jsonKeys, Hs. intuition congruence.
Qed.

Lemma firing_start_time_witness :
  let env := inOrder (λ _, Done successResponse) in
  let atEpoch := {| Labels := ∅; Annotations := ∅; StartsAt := {| Unix := 0 |};
                    GeneratorURL := "" |} in
  let req := sampleRequest "firing" (Some [warningAlert; atEpoch]) in
  ∃ url0 vp0 url1 vp1,
    dispatches (trace (serve env req)) = [(url0, vp0); (url1, vp1)] ∧
    ("state_start_time" ∈ jsonKeys vp0) ∧ ("state_start_time" ∉ jsonKeys vp1).
Proof.
  cbv zeta.
  set (atEpoch := {| Labels := ∅; Annotations := ∅; StartsAt := {| Unix := 0 |};
                     GeneratorURL := "" |}).
  assert (∃ url0 vp0 url1 vp1,
            dispatches (trace (serve (inOrder (λ _, Done successResponse))
                                 (sampleRequest "firing" (Some [warningAlert; atEpoch]))))
            = [(url0, vp0); (url1, vp1)]) as (url0 & vp0 & url1 & vp1 & Hd)
    by (vm_compute; eexists _, _, _, _; reflexivity).
  exists url0, vp0, url1, vp1. split; [exact Hd|]. split.
  - destruct (firing_start_time (inOrder (λ _, Done successResponse))
                (sampleRequest "firing" (Some [warningAlert; atEpoch]))
                (sampleMessage "firing" (Some [warningAlert; atEpoch]))
                (sampleData "firing" (Some [warningAlert; atEpoch]))
                0 url0 vp0
                (sampleRequest_routed "firing" (Some [warningAlert; atEpoch])))
      as (alert & Ha & _ & Hkey).
    { rewrite Hd. reflexivity. }
    injection Ha as <-. apply Hkey. discriminate.
  - destruct (firing_start_time (inOrder (λ _, Done successResponse))
                (sampleRequest "firing" (Some [warningAlert; atEpoch]))
                (sampleMessage "firing" (Some [warningAlert; atEpoch]))
                (sampleData "firing" (Some [warningAlert; atEpoch]))
                1 url1 vp1
                (sampleRequest_routed "firing" (Some [warningAlert; atEpoch])))
      as (alert & Ha & _ & Hkey).
    { rewrite Hd. reflexivity. }
    injection Ha as <-. intros Hin. apply Hkey in Hin. by apply Hin.
Defined.

(** ** The entity identifier *)

(** X12: the entity identifier is the decimal form of the group key:
    reading it back as a decimal number gives the group key, so that
    different group keys have different entity identifiers. *)
Theorem FormatUint_round_trip (u v : N) :
  ParseUint (FormatUint u) = Some u ∧
  (FormatUint u = FormatUint v → u = v).
Proof. split; [apply ParseUint_FormatUint | apply FormatUint_inj]. Qed.

Lemma formatBits_length (fuel : nat) :
  ∀ (u : N) (acc : string) (k : nat),
    (1 ≤ k)%nat → (u < 10 ^ N.of_nat k)%N →
    (String.length (formatBits fuel u acc) ≤ k + String.length acc)%nat.
Proof.
  induction fuel as [|fuel IH]; intros u acc k Hk Hu; cbn [formatBits].
  - lia.
  - destruct (N.ltb_spec u 10) as [Hlt|Hge]; [cbn; lia|].
    destruct k as [|[|k]]; [lia| |].
    + change (10 ^ N.of_nat 1)%N with 10%N in Hu. lia.
    + specialize (IH (u / 10)%N (String (digitChar (u mod 10)%N) acc) (S k)).
      cbn [String.length] in IH. etrans; [apply IH|]; [lia| |lia].
      rewrite (Nat2N.inj_succ (S k)), N.pow_succ_r' in Hu.
      apply N.Div0.div_lt_upper_bound. lia.
Qed.

(** X13: the entity identifier of a 64-bit group key has between one and
    twenty characters. *)
Theorem FormatUint_length (u : N) :
  (u < 2 ^ 64)%N →
  (1 ≤ String.length (FormatUint u) ≤ 20)%nat.
Proof.
  intros Hu. split.
  - pose proof (FormatUint_nonempty u) as Hne.
    destruct (FormatUint u); [done | cbn; lia].
  - unfold FormatUint.
    pose proof (formatBits_length (S (N.size_nat u)) u "" 20) as Hlen.
    cbn [String.length] in Hlen. rewrite Nat.add_0_r in Hlen. apply Hlen; [lia|].
    eapply N.lt_trans; [exact Hu|]. by vm_compute.
Qed.

Lemma FormatUint_length_witness :
  (1 ≤ String.length (FormatUint 18446744073709551615) ≤ 20)%nat.
Proof. apply FormatUint_length. by vm_compute. Defined.

(** ** The URL of a dispatch *)

Lemma slash_split (a a' b b' : string) :
  hasSlash a = false → hasSlash a' = false →
  a +:+ "/" +:+ b = a' +:+ "/" +:+ b' → a = a' ∧ b = b'.
Proof.
  revert a'. induction a as [|c a IH]; intros [|c' a'] Ha Ha' Heq;
    rewrite ?append_cons, ?append_nil_l in Heq; cbn in Ha, Ha'.
  - by injection Heq as ->.
  - injection Heq as <- _. done.
  - injection Heq as -> _. done.
  - injection Heq as -> Heq.
    apply orb_false_elim in Ha as [_ Ha]. apply orb_false_elim in Ha' as [_ Ha'].
    destruct (IH a' Ha Ha' Heq) as [-> ->]. done.
Qed.

(** X14: the credentials are put into the URL as they are, with a "/"
    between them and without escaping.  A slash in a credential therefore
    moves the boundary: the pairs (a/b, c) and (a, b/c) give the same URL.
    When the API keys hold no slash, different pairs give different URLs. *)
Theorem victoropsURL_credentials :
  (∀ a b c, victoropsURL (a +:+ "/" +:+ b) c = victoropsURL a (b +:+ "/" +:+ c)) ∧
  (∀ apiKey routingKey apiKey' routingKey',
     hasSlash apiKey = false → hasSlash apiKey' = false →
     victoropsURL apiKey routingKey = victoropsURL apiKey' routingKey' →
     apiKey = apiKey' ∧ routingKey = routingKey').
Proof.
  split.
  - intros a b c. unfold victoropsURL. by rewrite !append_assoc.
  - intros a b a' b' Ha Ha' Heq. unfold victoropsURL in Heq.
    apply (inj (String.app _)) in Heq. by apply slash_split.
Qed.

Lemma victoropsURL_credentials_witness :
  victoropsURL "key/x" "team" = victoropsURL "key" "x/team" ∧
  (victoropsURL "key" "team" = victoropsURL "key" "team" →
   "key" = "key" ∧ "team" = "team").
Proof.
  destruct victoropsURL_credentials as [Hsame Hinj]. split.
  - exact (Hsame "key" "x" "team").
  - exact (Hinj "key" "team" "key" "team" eq_refl eq_refl).
Defined.

(** ** The alerts of a resolved message *)

(** X15: the resolved branch never looks at the alerts: two requests that
    differ only in the alerts of their resolved message are served alike,
    with the same outbound call and the same reply. *)
Theorem resolved_ignores_alerts env query groupKey groupLabels externalURL
    alerts alerts' :
  serve env {| Body := Done {| Data := Some {| Status := "resolved";
                                               Alerts := alerts;
                                               GroupLabels := groupLabels;
                                               ExternalURL := externalURL |};
                               GroupKey := groupKey |};
               Query := query |}
  = serve env {| Body := Done {| Data := Some {| Status := "resolved";
                                                 Alerts := alerts';
                                                 GroupLabels := groupLabels;
                                                 ExternalURL := externalURL |};
                                 GroupKey := groupKey |};
                 Query := query |}.
Proof.
  unfold serve, victorops. cbn [Body Data Query Status GroupLabels].
  destruct (String.eqb (queryParam query victoropsApikeyParam) ""
            || String.eqb (queryParam query victoropsRoutingkeyParam) "");
    reflexivity.
Qed.
